(** * LazorKit starter: the transfer workflow of the two wallet dashboards

    A shallow embedding of [WalletDashboard] as it is written in
    [AppDirect.tsx] (the direct integration) and in
    [src/AppWalletStandard.tsx] (the wallet-standard integration):
    [refreshBalance], [handleSendTransaction], the Cancel and Close
    buttons of the send modal, and the mounting of the dashboard.

    JavaScript numbers are IEEE-754 binary64 values, taken from the
    Standard Library's [SpecFloat] (round to nearest, ties to even).
    The React state hooks are a record; a handler is a program that
    emits the sequence of its state updates and external calls. *)

From Stdlib Require Import ZArith List String Ascii Bool Lia.
From Stdlib Require Import DecimalString.
From Stdlib Require Import Floats.SpecFloat.
Import ListNotations.

Local Open Scope string_scope.
Local Open Scope Z_scope.

(** ** The JavaScript built-ins the handlers call (ECMA-262) *)

Module JS.

(** [number]: a binary64 value. *)
Definition number := spec_float.

Definition prec : Z := 53.
Definition emax : Z := 1024.

Definition NaN : number := S754_nan.
Definition Infinity : number := S754_infinity false.
Definition zero : number := S754_zero false.

(** The Number value for an integer (rounding when it has more than
    53 significant bits). *)
Definition of_Z (z : Z) : number := binary_normalize prec emax z 0 false.

(** The Number value for the ratio [p / q] of two positive integers,
    correctly rounded. *)
Definition of_ratio (p q : positive) : number :=
  SFdiv prec emax (S754_finite false p 0) (S754_finite false q 0).

(** The Number value for [m * 10^e], [m >= 0]. *)
Definition of_decimal (m e : Z) : number :=
  match m with
  | Zpos p =>
      match e with
      | Zneg k => of_ratio p (Pos.pow 10 k)
      | _ => of_Z (m * 10 ^ e)
      end
  | _ => zero
  end.

Definition mul : number -> number -> number := SFmul prec emax.
Definition div : number -> number -> number := SFdiv prec emax.
Definition sub : number -> number -> number := SFsub prec emax.
Definition neg : number -> number := SFopp.

(** [x < y], [x <= y], [x > y]; all false when an operand is NaN. *)
Definition lt (x y : number) : bool := SFltb x y.
Definition le (x y : number) : bool := SFleb x y.
Definition gt (x y : number) : bool := SFltb y x.

Definition isNaN (x : number) : bool :=
  match x with S754_nan => true | _ => false end.

Definition isFinite (x : number) : bool :=
  match x with S754_zero _ | S754_finite _ _ _ => true | _ => false end.

(** [Number.isInteger]. *)
Definition isInteger (x : number) : bool :=
  match x with
  | S754_zero _ => true
  | S754_finite _ m e =>
      match e with
      | Zneg k => Zpos m mod 2 ^ Zpos k =? 0
      | _ => true
      end
  | _ => false
  end.

(** ToBoolean of a Number: [+0], [-0] and NaN are falsy. *)
Definition truthy (x : number) : bool :=
  match x with
  | S754_zero _ | S754_nan => false
  | _ => true
  end.

(** [x || y] on numbers. *)
Definition or_else (x y : number) : number := if truthy x then x else y.

(** [Math.max(x, y)]: NaN when an operand is NaN; [+0] is larger than
    [-0]. *)
Definition Math_max (x y : number) : number :=
  match x, y with
  | S754_nan, _ | _, S754_nan => NaN
  | S754_zero sx, S754_zero sy => S754_zero (sx && sy)
  | _, _ => if lt x y then y else x
  end.

(** *** Strings *)

(** WhiteSpace and LineTerminator code units, for the 8-bit characters
    of [string]: TAB, LF, VT, FF, CR and SP. *)
Definition is_space (c : ascii) : bool :=
  let n := Z.of_nat (nat_of_ascii c) in
  ((9 <=? n) && (n <=? 13)) || (n =? 32).

Fixpoint trimStart (s : string) : string :=
  match s with
  | String c s' => if is_space c then trimStart s' else s
  | EmptyString => s
  end.

Fixpoint rev_string (s acc : string) : string :=
  match s with
  | String c s' => rev_string s' (String c acc)
  | EmptyString => acc
  end.

Definition trimEnd (s : string) : string :=
  rev_string (trimStart (rev_string s "")) "".

(** [String.prototype.trim]. *)
Definition trim (s : string) : string := trimEnd (trimStart s).

(** [String.prototype.includes]. *)
Fixpoint includes (s sub : string) : bool :=
  prefix sub s ||
  match s with
  | String _ s' => includes s' sub
  | EmptyString => false
  end.

(** *** parseFloat *)

Definition is_digit (c : ascii) : bool :=
  let n := Z.of_nat (nat_of_ascii c) in (48 <=? n) && (n <=? 57).

Definition digit_value (c : ascii) : Z := Z.of_nat (nat_of_ascii c) - 48.

(** The longest run of DecimalDigits at the head of [s]: the value
    accumulated onto [acc], how many digits were read, and the rest. *)
Fixpoint span_digits (s : string) (acc : Z) (n : Z) : Z * Z * string :=
  match s with
  | String c s' =>
      if is_digit c then span_digits s' (10 * acc + digit_value c) (n + 1)
      else (acc, n, s)
  | EmptyString => (acc, n, s)
  end.

(** An optional ExponentPart at the head of [s]; an 'e' that is not
    followed by a SignedInteger is not part of the literal. *)
Definition exponent_part (s : string) : Z :=
  match s with
  | String c s' =>
      if (Ascii.eqb c "e" || Ascii.eqb c "E")%bool then
        match s' with
        | String "+" s'' =>
            let '(v, n, _) := span_digits s'' 0 0 in if n =? 0 then 0 else v
        | String "-" s'' =>
            let '(v, n, _) := span_digits s'' 0 0 in if n =? 0 then 0 else - v
        | _ =>
            let '(v, n, _) := span_digits s' 0 0 in if n =? 0 then 0 else v
        end
      else 0
  | EmptyString => 0
  end.

(** The value of the longest prefix of [s] that is a
    StrUnsignedDecimalLiteral; NaN when there is none. *)
Definition unsigned_literal (s : string) : number :=
  if prefix "Infinity" s then Infinity
  else
    let '(i, ni, r1) := span_digits s 0 0 in
    match r1 with
    | String "." r2 =>
        let '(m, nf, r3) := span_digits r2 i 0 in
        if (ni =? 0) && (nf =? 0) then NaN
        else of_decimal m (exponent_part r3 - nf)
    | _ =>
        if ni =? 0 then NaN else of_decimal i (exponent_part r1)
    end.

(** [parseFloat(s)]. *)
Definition parseFloat (s : string) : number :=
  match trimStart s with
  | String "-" s' => neg (unsigned_literal s')
  | String "+" s' => unsigned_literal s'
  | s' => unsigned_literal s'
  end.

(** *** Number.prototype.toFixed *)

(** The decimal digits of a non-negative integer. *)
Definition digits (n : Z) : string :=
  NilZero.string_of_uint (N.to_uint (Z.to_N n)).

Fixpoint zeros (k : nat) : string :=
  match k with
  | O => ""
  | S k' => String "0" (zeros k')
  end.

Fixpoint take (k : nat) (s : string) : string :=
  match k, s with
  | S k', String c s' => String c (take k' s')
  | _, _ => ""
  end.

Fixpoint drop (k : nat) (s : string) : string :=
  match k, s with
  | S k', String _ s' => drop k' s'
  | _, _ => s
  end.

(** The integer [n] for which [n / 10^f] is closest to [m * 2^e]; the
    larger one of two. *)
Definition scaled_round (m : positive) (e : Z) (f : nat) : Z :=
  let num := Zpos m * 10 ^ Z.of_nat f in
  match e with
  | Zneg k => (2 * num + 2 ^ Zpos k) / (2 * 2 ^ Zpos k)
  | _ => num * 2 ^ e
  end.

(** The digits of [n] with a decimal point before the last [f]. *)
Definition fixed_digits (n : Z) (f : nat) : string :=
  let m := digits n in
  match f with
  | O => m
  | _ =>
      let m' := zeros (S f - String.length m) ++ m in
      let k := String.length m' in
      take (k - f) m' ++ "." ++ drop (k - f) m'
  end.

(** Does the value [m * 2^e] reach [10^21]? *)
Definition at_least_1e21 (m : positive) (e : Z) : bool :=
  match e with
  | Zneg k => 10 ^ 21 * 2 ^ Zpos k <=? Zpos m
  | _ => 10 ^ 21 <=? Zpos m * 2 ^ e
  end.

Fixpoint strip_zeros_rev (s : string) : string :=
  match s with
  | String "0" s' => strip_zeros_rev s'
  | _ => s
  end.

(** The digits of [v] without its trailing zeros. *)
Definition significant (v : Z) : string :=
  rev_string (strip_zeros_rev (rev_string (digits v) "")) "".

(** Number::toString for an integer value [X >= 10^21] of the number
    [x]: the fewest digits that read back as [x], the closest to [X]
    among them, in exponential notation. [k] counts the digits tried,
    [fuel] bounds the search (17 digits always suffice). *)
Fixpoint shortest (x : number) (X nd : Z) (k : Z) (fuel : nat) : Z :=
  match fuel with
  | O => X
  | S fuel' =>
      let p := 10 ^ (nd - k) in
      let lo := X / p * p in
      let hi := lo + p in
      let ok v := match SFcompare (of_Z v) x with Some Eq => true | _ => false end in
      match ok lo, ok hi with
      | true, true =>
          if X - lo <? hi - X then lo
          else if hi - X <? X - lo then hi
          else if Z.even (lo / p) then lo else hi
      | true, false => lo
      | false, true => hi
      | false, false => shortest x X nd (k + 1) fuel'
      end
  end.

Definition toString_large (x : number) (X : Z) : string :=
  let nd := Z.of_nat (String.length (digits X)) in
  let v := shortest x X nd 1 17 in
  let s := significant v in
  let e := digits (Z.of_nat (String.length (digits v)) - 1) in
  match s with
  | String d EmptyString => String d ("e+" ++ e)
  | String d rest => String d ("." ++ rest ++ "e+" ++ e)
  | EmptyString => ""
  end.

(** [x.toFixed(f)]. *)
Definition toFixed (x : number) (f : nat) : string :=
  match x with
  | S754_nan => "NaN"
  | S754_infinity false => "Infinity"
  | S754_infinity true => "-Infinity"
  | S754_zero _ => fixed_digits 0 f
  | S754_finite s m e =>
      (if s then "-" else "") ++
      (if at_least_1e21 m e
       then toString_large (S754_finite false m e) (Zpos m * 2 ^ e)
       else fixed_digits (scaled_round m e f) f)
  end.

End JS.

(** ** Handlers as programs

    A handler runs against one render of the component: it reads the
    state and the wallet hook of that render, calls [setX] to queue state
    updates, and calls the external services. Its meaning here is the
    sequence of those updates and calls, and how it ends. *)

(** What a [throw] carries: an object for which [err instanceof Error]
    holds, with its [message], or any other value. *)
Inductive thrown : Type :=
| ErrorObj (message : string)
| NonError.

Inductive result (A : Type) : Type :=
| Ok (a : A)
| Throw (e : thrown).

Arguments Ok {A} a.
Arguments Throw {A} e.

Module Prog.
Section Monad.
Context {E : Type}.

(** The events emitted so far, and a value or an exception. *)
Definition t (A : Type) : Type := list E * result A.

Definition ret {A} (a : A) : t A := ([], Ok a).
Definition throw {A} (e : thrown) : t A := ([], Throw e).
Definition emit (ev : E) : t unit := ([ev], Ok tt).

Definition bind {A B} (p : t A) (k : A -> t B) : t B :=
  match p with
  | (tr, Ok a) => let '(tr', r) := k a in ((tr ++ tr')%list, r)
  | (tr, Throw e) => (tr, Throw e)
  end.

(** [try { p } catch (err) { h err }]. *)
Definition try_catch {A} (p : t A) (h : thrown -> t A) : t A :=
  match p with
  | (tr, Throw e) => let '(tr', r) := h e in ((tr ++ tr')%list, r)
  | _ => p
  end.

(** [try { p } finally { q }]. *)
Definition finally {A} (p : t A) (q : t unit) : t A :=
  let '(tr, r) := p in
  let '(tr', r') := q in
  ((tr ++ tr')%list, match r' with Throw e => Throw e | Ok _ => r end).

(** A call to an external service: the call is an event, its outcome
    is the world's. *)
Definition call {A} (ev : E) (outcome : result A) : t A := ([ev], outcome).

Definition trace {A} (p : t A) : list E := fst p.
Definition outcome {A} (p : t A) : result A := snd p.
Definition throws {A} (p : t A) : bool :=
  match outcome p with Throw _ => true | Ok _ => false end.
End Monad.
End Prog.

Declare Scope prog_scope.
Delimit Scope prog_scope with prog.
Notation "x <- p ;; k" := (Prog.bind p (fun x => k))
  (at level 61, p at next level, right associativity) : prog_scope.
Notation "p ;; k" := (Prog.bind p (fun _ => k))
  (at level 61, right associativity) : prog_scope.

(** ** What the two dashboards share *)

Section Dashboard.
Context {PublicKey Instruction : Type}.

(** The argument of [SystemProgram.transfer]. *)
Record TransferParams : Type := {
  fromPubkey : PublicKey;
  toPubkey : PublicKey;
  lamports : JS.number
}.

(** The [useState] cells of [WalletDashboard] (part_000 lines 53-60,
    AppWalletStandard.tsx lines 23-30). *)
Record State : Type := {
  balance : option JS.number;
  copied : bool;
  showSendModal : bool;
  recipient : string;
  amount : string;
  txHash : option string;
  txError : string;
  sending : bool
}.

(** The initial values given to [useState]. *)
Definition initial : State := {|
  balance := None;
  copied := false;
  showSendModal := false;
  recipient := "";
  amount := "";
  txHash := None;
  txError := "";
  sending := false
|}.

Inductive action : Type :=
| SetBalance (b : JS.number)
| SetShowSendModal (b : bool)
| SetRecipient (r : string)
| SetAmount (a : string)
| SetTxHash (h : option string)
| SetTxError (m : string)
| SetSending (b : bool)
| NewPublicKey (s : string)
| Transfer (p : TransferParams)
| SignAndSend (instructions : list Instruction)
| GetBalance (pk : PublicKey)
| SetInterval (ms : Z)
| ClearInterval
| ConsoleLog (label : string)
| ConsoleError (label : string) (e : thrown).

(** The services outside the repository: the [PublicKey] constructor
    and [SystemProgram.transfer] of web3.js, the provider's
    sign-and-send operation, and [connection.getBalance]. *)
Record World : Type := {
  PublicKey_new : string -> result PublicKey;
  SystemProgram_transfer : TransferParams -> result Instruction;
  signAndSend : list Instruction -> result string;
  getBalance : PublicKey -> result JS.number
}.

(** The state update an action is; calls and logs are none. *)
Definition update (a : action) (s : State) : State :=
  match a with
  | SetBalance b =>
      {| balance := Some b; copied := copied s; showSendModal := showSendModal s;
         recipient := recipient s; amount := amount s; txHash := txHash s;
         txError := txError s; sending := sending s |}
  | SetShowSendModal b =>
      {| balance := balance s; copied := copied s; showSendModal := b;
         recipient := recipient s; amount := amount s; txHash := txHash s;
         txError := txError s; sending := sending s |}
  | SetRecipient r =>
      {| balance := balance s; copied := copied s; showSendModal := showSendModal s;
         recipient := r; amount := amount s; txHash := txHash s;
         txError := txError s; sending := sending s |}
  | SetAmount a' =>
      {| balance := balance s; copied := copied s; showSendModal := showSendModal s;
         recipient := recipient s; amount := a'; txHash := txHash s;
         txError := txError s; sending := sending s |}
  | SetTxHash h =>
      {| balance := balance s; copied := copied s; showSendModal := showSendModal s;
         recipient := recipient s; amount := amount s; txHash := h;
         txError := txError s; sending := sending s |}
  | SetTxError m =>
      {| balance := balance s; copied := copied s; showSendModal := showSendModal s;
         recipient := recipient s; amount := amount s; txHash := txHash s;
         txError := m; sending := sending s |}
  | SetSending b =>
      {| balance := balance s; copied := copied s; showSendModal := showSendModal s;
         recipient := recipient s; amount := amount s; txHash := txHash s;
         txError := txError s; sending := b |}
  | _ => s
  end.

(** The state once the updates of a trace are applied, in order. *)
Definition run (tr : list action) (s : State) : State :=
  fold_left (fun s a => update a s) tr s.

(** The state a handler leaves. *)
Definition after {A} (p : Prog.t A) (s : State) : State :=
  run (Prog.trace p) s.

Definition LAMPORTS_PER_SOL : JS.number := JS.of_Z 1000000000.

(** [const RENT_RESERVE = 0.001]. *)
Definition RENT_RESERVE : JS.number := JS.of_decimal 1 (-3).

(** [`${RENT_RESERVE}`]: Number::toString of the constant. *)
Definition RENT_RESERVE_text : string := "0.001".

(** [balance || 0], for [balance : number | null]. *)
Definition balance_or_0 (balance : option JS.number) : JS.number :=
  match balance with
  | Some b => JS.or_else b JS.zero
  | None => JS.zero
  end.

(** [balance?.toFixed(4) || '0']: the empty string is falsy. *)
Definition balance_text (balance : option JS.number) : string :=
  match balance with
  | Some b =>
      match JS.toFixed b 4 with
      | EmptyString => "0"
      | text => text
      end
  | None => "0"
  end.

(** The Cancel button of the send form (part_000 lines 385-390,
    AppWalletStandard.tsx lines 374-379). *)
Definition onCancel : Prog.t (E := action) unit :=
  (Prog.emit (SetShowSendModal false) ;;
   Prog.emit (SetTxError "") ;;
   Prog.emit (SetRecipient "") ;;
   Prog.emit (SetAmount ""))%prog.

(** The Close button of the success panel (part_000 lines 326-329,
    AppWalletStandard.tsx lines 315-318). *)
Definition onClose : Prog.t (E := action) unit :=
  (Prog.emit (SetShowSendModal false) ;;
   Prog.emit (SetTxHash None))%prog.

(** The amount and balance rules (part_000 lines 105-121,
    AppWalletStandard.tsx lines 71-87); the value is [amountNum]. *)
Definition checkAmount (amount : string) (balance : option JS.number)
  : Prog.t (E := action) JS.number :=
  (let amountNum := JS.parseFloat amount in
   (if JS.isNaN amountNum || JS.le amountNum JS.zero
    then Prog.throw (ErrorObj "Invalid amount")
    else Prog.ret tt) ;;
   let maxSendable :=
     JS.Math_max JS.zero (JS.sub (balance_or_0 balance) RENT_RESERVE) in
   (match balance with
    | Some b =>
        if JS.gt amountNum b
        then Prog.throw (ErrorObj "Insufficient balance")
        else Prog.ret tt
    | None => Prog.ret tt
    end) ;;
   (match balance with
    | Some _ =>
        if JS.gt amountNum maxSendable
        then Prog.throw (ErrorObj
               ("Amount too high. Keep at least " ++ RENT_RESERVE_text ++
                " SOL for rent. Max sendable: " ++ JS.toFixed maxSendable 4 ++
                " SOL"))
        else Prog.ret tt
    | None => Prog.ret tt
    end) ;;
   Prog.ret amountNum)%prog.

End Dashboard.

Arguments TransferParams : clear implicits.
Arguments action : clear implicits.
Arguments World : clear implicits.

(** ** The direct integration (AppDirect.tsx, src/unnamed/part_000) *)

Module Direct.
Section Variant.
Context {PublicKey Instruction : Type}.

Record WalletInfo : Type := { smartWallet : string }.

(** What [useWallet()] of the LazorKit SDK hands to a render. *)
Record Hook : Type := {
  smartWalletPubkey : option PublicKey;
  wallet : option WalletInfo;
  isConnected : bool;
  isConnecting : bool
}.

Local Notation "'Program'" := (Prog.t (E := action PublicKey Instruction)).

(** Lines 71-79. *)
Definition refreshBalance (w : World PublicKey Instruction) (h : Hook) : Program unit :=
  match smartWalletPubkey h with
  | None => Prog.ret tt
  | Some pk =>
      Prog.try_catch
        (balanceLamports <- Prog.call (GetBalance pk) (getBalance w pk) ;;
         Prog.emit (SetBalance (JS.div balanceLamports LAMPORTS_PER_SOL)))%prog
        (fun error => Prog.emit (ConsoleError "Balance refresh error:" error))
  end.

(** The effect of lines 63-69, and the cleanup it returns. *)
Definition effect (w : World PublicKey Instruction) (h : Hook) : Program unit :=
  match smartWalletPubkey h with
  | Some _ => (refreshBalance w h ;; Prog.emit (SetInterval 10000))%prog
  | None => Prog.ret tt
  end.

Definition cleanup (h : Hook) : Program unit :=
  match smartWalletPubkey h with
  | Some _ => Prog.emit ClearInterval
  | None => Prog.ret tt
  end.

(** React, when the dependency [smartWalletPubkey] differs between
    the render of [old] and that of [new]: the cleanup of the old
    effect, then the new effect. *)
Definition on_pubkey_change (w : World PublicKey Instruction) (old new : Hook) : Program unit :=
  (cleanup old ;; effect w new)%prog.

(** The [catch] block, lines 155-176: the message given to
    [setTxError]. [balance] is the one of the render. *)
Definition errorMessage (balance : option JS.number) (err : thrown) : string :=
  match err with
  | ErrorObj message =>
      if JS.includes message "Signing failed" then
        "Signing failed. Please ensure you authenticate with your passkey."
      else if JS.includes message "User rejected" then
        "Transaction was cancelled."
      else if JS.includes message "Transaction too large"
              || JS.includes message "too large" then
        "Transaction too large. The transaction has been optimized with V0 format. If this persists, please try a smaller amount or contact support."
      else if JS.includes message "custom program error: 0x1"
              || JS.includes message "custom program error: 0x2" then
        "Insufficient funds. Your balance: " ++ balance_text balance ++
        " SOL. You need to keep at least 0.001 SOL for rent. Try a smaller amount or fund your wallet using the faucet."
      else if JS.includes message
                "Attempt to debit an account but found no record of a prior credit" then
        "Account not funded. Please add SOL to your wallet using the faucet."
      else if JS.includes message "Transaction simulation failed" then
        "Transaction simulation failed. This may be due to insufficient funds or network issues. Please check your balance and try again."
      else message
  | NonError => "Transaction failed"
  end.

(** The [try] block, lines 96-154. *)
Definition attempt (w : World PublicKey Instruction) (h : Hook) (s : State) : Program unit :=
  (from <- match smartWalletPubkey h with
           | None => Prog.throw (ErrorObj "Wallet not connected")
           | Some pk => Prog.ret pk
           end ;;
   (if negb (isConnected h) || match wallet h with None => true | Some _ => false end
    then Prog.throw (ErrorObj "Please reconnect your wallet")
    else Prog.ret tt) ;;
   recipientPubkey <-
     Prog.call (NewPublicKey (JS.trim (recipient s)))
               (PublicKey_new w (JS.trim (recipient s))) ;;
   amountNum <- checkAmount (amount s) (balance s) ;;
   let params := {| fromPubkey := from; toPubkey := recipientPubkey;
                    lamports := JS.mul amountNum LAMPORTS_PER_SOL |} in
   instruction <- Prog.call (Transfer params) (SystemProgram_transfer w params) ;;
   Prog.emit (ConsoleLog "Attempting to sign transaction...") ;;
   signature <- Prog.call (SignAndSend [instruction]) (signAndSend w [instruction]) ;;
   Prog.emit (ConsoleLog "Transaction successful:") ;;
   Prog.emit (SetTxHash (Some signature)) ;;
   Prog.emit (SetRecipient "") ;;
   Prog.emit (SetAmount "") ;;
   refreshBalance w h)%prog.

(** Lines 89-180. *)
Definition handleSendTransaction (w : World PublicKey Instruction) (h : Hook) (s : State) : Program unit :=
  (Prog.emit (SetTxError "") ;;
   Prog.emit (SetTxHash None) ;;
   Prog.emit (SetSending true) ;;
   Prog.finally
     (Prog.try_catch
        (attempt w h s)
        (fun err =>
           Prog.emit (ConsoleError "Transaction failed:" err) ;;
           Prog.emit (SetTxError (errorMessage (balance s) err))))
     (Prog.emit (SetSending false)))%prog.

(** [AppContent], lines 460-479: which screen a render shows. *)
Inductive Screen : Type := ConnectingScreen | WelcomeScreen | WalletDashboard.

Definition AppContent (h : Hook) : Screen :=
  if isConnecting h then ConnectingScreen
  else if negb (isConnected h) then WelcomeScreen
  else WalletDashboard.

(** The state cells of the dashboard across a render: React keeps
    them while the dashboard stays rendered, drops them when the
    render shows another screen, and starts from the [useState]
    initial values when the dashboard is mounted. *)
Definition mounted (h : Hook) (prev : option State) : option State :=
  match AppContent h with
  | WalletDashboard => Some match prev with Some s => s | None => initial end
  | _ => None
  end.

(** The state cells of the dashboard at the render that follows a
    change of [smartWalletPubkey] from the hook [old] to the hook [new]:
    none when the dashboard is no longer rendered. *)
Definition rerender (w : World PublicKey Instruction) (old new : Hook)
           (s : State) : option State :=
  match mounted new (Some s) with
  | Some s' => Some (after (on_pubkey_change w old new) s')
  | None => None
  end.

End Variant.
End Direct.

(** ** The wallet-standard integration (src/AppWalletStandard.tsx) *)

Module Standard.
Section Variant.
Context {PublicKey Instruction : Type}.

(** What [useWallet()] of the wallet adapter hands to a render. *)
Record Hook : Type := {
  publicKey : option PublicKey;
  connected : bool
}.

Local Notation "'Program'" := (Prog.t (E := action PublicKey Instruction)).

(** Lines 41-49. *)
Definition refreshBalance (w : World PublicKey Instruction) (h : Hook) : Program unit :=
  match publicKey h with
  | None => Prog.ret tt
  | Some pk =>
      Prog.try_catch
        (balanceLamports <- Prog.call (GetBalance pk) (getBalance w pk) ;;
         Prog.emit (SetBalance (JS.div balanceLamports LAMPORTS_PER_SOL)))%prog
        (fun error => Prog.emit (ConsoleError "Balance refresh error:" error))
  end.

(** The effect of lines 33-39, and the cleanup it returns. *)
Definition effect (w : World PublicKey Instruction) (h : Hook) : Program unit :=
  match publicKey h with
  | Some _ => (refreshBalance w h ;; Prog.emit (SetInterval 10000))%prog
  | None => Prog.ret tt
  end.

Definition cleanup (h : Hook) : Program unit :=
  match publicKey h with
  | Some _ => Prog.emit ClearInterval
  | None => Prog.ret tt
  end.

(** React, when the dependency [publicKey] differs between the
    render of [old] and that of [new]. *)
Definition on_pubkey_change (w : World PublicKey Instruction) (old new : Hook) : Program unit :=
  (cleanup old ;; effect w new)%prog.

(** The [catch] block, lines 113-134. *)
Definition errorMessage (balance : option JS.number) (err : thrown) : string :=
  match err with
  | ErrorObj message =>
      if JS.includes message "User rejected" then
        "Transaction was cancelled."
      else if JS.includes message "Signing failed" then
        "Signing failed. Please ensure you authenticate with your passkey."
      else if JS.includes message "Transaction too large"
              || JS.includes message "too large" then
        "Transaction too large. If this persists, please try a smaller amount or contact support."
      else if JS.includes message "custom program error: 0x1"
              || JS.includes message "custom program error: 0x2" then
        "Insufficient funds. Your balance: " ++ balance_text balance ++
        " SOL. You need to keep at least 0.001 SOL for rent. Try a smaller amount or fund your wallet using the faucet."
      else if JS.includes message
                "Attempt to debit an account but found no record of a prior credit" then
        "Account not funded. Please add SOL to your wallet using the faucet."
      else if JS.includes message "Transaction simulation failed" then
        "Transaction simulation failed. This may be due to insufficient funds or network issues. Please check your balance and try again."
      else message
  | NonError => "Transaction failed"
  end.

(** The [try] block, lines 66-112. [new Transaction().add(i)] is the
    list of its instructions. *)
Definition attempt (w : World PublicKey Instruction) (h : Hook) (s : State) : Program unit :=
  (from <- match publicKey h with
           | None => Prog.throw (ErrorObj "Wallet not connected")
           | Some pk =>
               if negb (connected h)
               then Prog.throw (ErrorObj "Wallet not connected")
               else Prog.ret pk
           end ;;
   recipientPubkey <-
     Prog.call (NewPublicKey (JS.trim (recipient s)))
               (PublicKey_new w (JS.trim (recipient s))) ;;
   amountNum <- checkAmount (amount s) (balance s) ;;
   let params := {| fromPubkey := from; toPubkey := recipientPubkey;
                    lamports := JS.mul amountNum LAMPORTS_PER_SOL |} in
   instruction <- Prog.call (Transfer params) (SystemProgram_transfer w params) ;;
   Prog.emit (ConsoleLog "Attempting to send transaction...") ;;
   signature <- Prog.call (SignAndSend [instruction]) (signAndSend w [instruction]) ;;
   Prog.emit (ConsoleLog "Transaction successful:") ;;
   Prog.emit (SetTxHash (Some signature)) ;;
   Prog.emit (SetRecipient "") ;;
   Prog.emit (SetAmount "") ;;
   refreshBalance w h)%prog.

(** Lines 59-138. *)
Definition handleSendTransaction (w : World PublicKey Instruction) (h : Hook) (s : State) : Program unit :=
  (Prog.emit (SetTxError "") ;;
   Prog.emit (SetTxHash None) ;;
   Prog.emit (SetSending true) ;;
   Prog.finally
     (Prog.try_catch
        (attempt w h s)
        (fun err =>
           Prog.emit (ConsoleError "Transaction failed:" err) ;;
           Prog.emit (SetTxError (errorMessage (balance s) err))))
     (Prog.emit (SetSending false)))%prog.

(** [AppWalletStandard], lines 442-448, renders [WalletDashboard]
    whatever the hook says, and [WalletDashboard] itself shows the
    connect screen when [!connected] (lines 140-175): the dashboard
    stays mounted, so React keeps its state cells. *)
Inductive Screen : Type := ConnectScreen | DashboardScreen.

Definition WalletDashboard (h : Hook) : Screen :=
  if negb (connected h) then ConnectScreen else DashboardScreen.

Definition mounted (h : Hook) (prev : option State) : option State :=
  Some match prev with Some s => s | None => initial end.

(** The state cells of the dashboard at the render that follows a
    change of [publicKey] from the hook [old] to the hook [new]:
    none when the dashboard is no longer rendered. *)
Definition rerender (w : World PublicKey Instruction) (old new : Hook)
           (s : State) : option State :=
  match mounted new (Some s) with
  | Some s' => Some (after (on_pubkey_change w old new) s')
  | None => None
  end.

End Variant.
End Standard.

(** ** What is read off a trace *)

Section Observations.
Context {PublicKey Instruction : Type}.

Definition is_transfer (a : action PublicKey Instruction) : bool :=
  match a with Transfer _ => true | _ => false end.

(** The attempt passed validation: the handler went on to build the
    transfer instruction, the first step of the submission. *)
Definition accepted (tr : list (action PublicKey Instruction)) : bool :=
  existsb is_transfer tr.

(** The provider's sign-and-send operation was called. *)
Definition submitted (tr : list (action PublicKey Instruction)) : bool :=
  existsb (fun a => match a with SignAndSend _ => true | _ => false end) tr.

(** The [lamports] handed to [SystemProgram.transfer], if any. *)
Fixpoint lamports_sent (tr : list (action PublicKey Instruction))
  : option JS.number :=
  match tr with
  | Transfer p :: _ => Some (lamports p)
  | _ :: tr' => lamports_sent tr'
  | [] => None
  end.

(** Is the balance stored before the transaction identifier is? *)
Fixpoint balance_set_before_success (tr : list (action PublicKey Instruction))
  : bool :=
  match tr with
  | SetBalance _ :: _ => true
  | SetTxHash (Some _) :: _ => false
  | _ :: tr' => balance_set_before_success tr'
  | [] => false
  end.

(** Does the trace query or store the balance at all? *)
Definition touches_balance (a : action PublicKey Instruction) : bool :=
  match a with SetBalance _ | GetBalance _ => true | _ => false end.

(** A [setX] call: an update of a state cell. *)
Definition is_update (a : action PublicKey Instruction) : bool :=
  match a with
  | SetBalance _ | SetShowSendModal _ | SetRecipient _ | SetAmount _
  | SetTxHash _ | SetTxError _ | SetSending _ => true
  | _ => false
  end.

(** Only calls and logs: no state update and no balance query. *)
Definition quiet (tr : list (action PublicKey Instruction)) : bool :=
  forallb (fun a => negb (is_update a) && negb (touches_balance a)) tr.

(** An outcome field the modal renders: [txHash] and [txError] are
    tested for truthiness (part_000 lines 300, 308 and 337). *)
Definition hash_shown (s : State) : bool :=
  match txHash s with
  | Some (String _ _) => true
  | _ => false
  end.

Definition error_shown (s : State) : bool :=
  match txError s with
  | String _ _ => true
  | EmptyString => false
  end.

Definition failed {A} (p : Prog.t (E := action PublicKey Instruction) A) : Prop :=
  exists e, Prog.outcome p = Throw e.

Definition succeeded {A} (p : Prog.t (E := action PublicKey Instruction) A) : Prop :=
  exists a, Prog.outcome p = Ok a.

End Observations.

(** The rejection rule in the words of the specification: [a <= 0] or
    not a finite number, or [a > b], or [a > max(0, b - 0.001)]. *)
Definition spec_rejects (a b : JS.number) : bool :=
  JS.le a JS.zero || negb (JS.isFinite a) || JS.gt a b
  || JS.gt a (JS.Math_max JS.zero (JS.sub b RENT_RESERVE)).

(** A number that is zero, finite or infinite with the sign [sx]. *)
Definition signed (sx : bool) (x : JS.number) : Prop :=
  match x with
  | S754_zero s | S754_infinity s | S754_finite s _ _ => s = sx
  | S754_nan => False
  end.

(** The rejection rule of the specification on exact quantities, in
    lamports: an amount of [a] lamports against a balance of [b]
    lamports, the reserve of 0.001 SOL being 1000000 lamports. *)
Definition spec_rejects_lamports (a b : Z) : bool :=
  (a <=? 0) || (b <? a) || (Z.max 0 (b - 1000000) <? a).

(** ** Numeric texts

    A text is numeric, in the words of the specification, when it is a
    number as a whole: white space around it apart, a signed decimal
    literal or Infinity, with nothing after it. *)




(** ** Calls and timers in a trace *)

Section Calls.
Context {PublicKey Instruction : Type}.

(** A call that leaves the component: to web3.js, the provider or the
    RPC node. *)
Definition is_call (a : action PublicKey Instruction) : bool :=
  match a with
  | NewPublicKey _ | Transfer _ | SignAndSend _ | GetBalance _ => true
  | _ => false
  end.

Definition calls (tr : list (action PublicKey Instruction))
  : list (action PublicKey Instruction) :=
  filter is_call tr.

Definition is_submit (a : action PublicKey Instruction) : bool :=
  match a with SignAndSend _ => true | _ => false end.

Definition is_query (a : action PublicKey Instruction) : bool :=
  match a with GetBalance _ => true | _ => false end.

Definition count (f : action PublicKey Instruction -> bool)
           (tr : list (action PublicKey Instruction)) : nat :=
  List.length (filter f tr).

(** The intervals set and not yet cleared, starting from [n]. *)
Fixpoint live_intervals (tr : list (action PublicKey Instruction)) (n : Z) : Z :=
  match tr with
  | SetInterval _ :: tr' => live_intervals tr' (n + 1)
  | ClearInterval :: tr' => live_intervals tr' (n - 1)
  | _ :: tr' => live_intervals tr' n
  | [] => n
  end.

(** The calls that build the transfer: the [PublicKey] constructor and
    [SystemProgram.transfer]. *)
Definition is_build (a : action PublicKey Instruction) : bool :=
  match a with
  | NewPublicKey _ | Transfer _ => true
  | _ => false
  end.

Definition builds (tr : list (action PublicKey Instruction))
  : list (action PublicKey Instruction) :=
  filter is_build tr.

(** Calls in the order of the handler: the recipient is parsed, then the
    instruction is built, then the provider is called, then the balance
    is queried, each at most once and none without the one before. *)
Definition in_order (cs : list (action PublicKey Instruction)) : bool :=
  match cs with
  | []
  | [NewPublicKey _]
  | [NewPublicKey _; Transfer _]
  | [NewPublicKey _; Transfer _; SignAndSend _]
  | [NewPublicKey _; Transfer _; SignAndSend _; GetBalance _] => true
  | _ => false
  end.

(** Is the number of live intervals 0 or 1 at every point of the trace,
    starting from [n]? *)
Fixpoint intervals_ok (tr : list (action PublicKey Instruction)) (n : Z) : bool :=
  (0 <=? n) && (n <=? 1) &&
  match tr with
  | SetInterval _ :: tr' => intervals_ok tr' (n + 1)
  | ClearInterval :: tr' => intervals_ok tr' (n - 1)
  | _ :: tr' => intervals_ok tr' n
  | [] => true
  end.

End Calls.

(** ** The life of a mounted dashboard

    React runs the effect when the dashboard mounts, runs the cleanup
    and the effect again at each render whose dependency differs from
    the one before, and runs the cleanup when the dashboard unmounts.
    A life is the world and hook of the mounting render and those of
    the renders at which the dependency changed. *)

Section Lifecycle.
Context {PublicKey Instruction : Type}.

Fixpoint direct_changes (h : Direct.Hook (PublicKey := PublicKey))
         (later : list (World PublicKey Instruction * Direct.Hook))
  : Prog.t (E := action PublicKey Instruction) unit :=
  match later with
  | [] => Prog.ret tt
  | (w, h') :: rest =>
      (Direct.on_pubkey_change w h h' ;; direct_changes h' rest)%prog
  end.

Definition direct_life (w : World PublicKey Instruction) (h : Direct.Hook)
           (later : list (World PublicKey Instruction * Direct.Hook))
  : Prog.t (E := action PublicKey Instruction) unit :=
  (Direct.effect w h ;; direct_changes h later)%prog.

Fixpoint standard_changes (h : Standard.Hook (PublicKey := PublicKey))
         (later : list (World PublicKey Instruction * Standard.Hook))
  : Prog.t (E := action PublicKey Instruction) unit :=
  match later with
  | [] => Prog.ret tt
  | (w, h') :: rest =>
      (Standard.on_pubkey_change w h h' ;; standard_changes h' rest)%prog
  end.

Definition standard_life (w : World PublicKey Instruction) (h : Standard.Hook)
           (later : list (World PublicKey Instruction * Standard.Hook))
  : Prog.t (E := action PublicKey Instruction) unit :=
  (Standard.effect w h ;; standard_changes h later)%prog.

(** The live intervals a hook stands for: one when it carries an
    account identifier. *)
Definition one_if (b : bool) : Z := if b then 1 else 0.

(** Does the hook carry an account identifier? *)
Definition direct_keyed (h : Direct.Hook (PublicKey := PublicKey)) : bool :=
  match Direct.smartWalletPubkey h with Some _ => true | None => false end.

Definition standard_keyed (h : Standard.Hook (PublicKey := PublicKey)) : bool :=
  match Standard.publicKey h with Some _ => true | None => false end.

(** The unmounting of a dashboard whose last render had the hook [h]. *)
Definition direct_unmount (h : Direct.Hook (PublicKey := PublicKey))
  : Prog.t (E := action PublicKey Instruction) unit :=
  Direct.cleanup h.

Definition standard_unmount (h : Standard.Hook (PublicKey := PublicKey))
  : Prog.t (E := action PublicKey Instruction) unit :=
  Standard.cleanup h.

(** The hook of the last render of a life. *)
Definition last_hook {Hook : Type} (h : Hook)
           (later : list (World PublicKey Instruction * Hook)) : Hook :=
  last (map snd later) h.

End Lifecycle.

(** ** What the dashboard shows and offers

    The conditions of the JSX that both files share word for word
    (part_000 lines 219-265 and 295-415, AppWalletStandard.tsx lines
    208-254 and 284-404). *)

Module View.

(** [balance === 0]. *)
Definition is_zero (b : JS.number) : bool :=
  match b with S754_zero _ => true | _ => false end.

(** [disabled] of the Send SOL button:
    [!publicKey || balance === null || balance === 0]. *)
Definition sendDisabled (hasKey : bool) (balance : option JS.number) : bool :=
  negb hasKey ||
  match balance with
  | None => true
  | Some b => is_zero b
  end.

(** [balance !== null ? balance.toFixed(4) : '---']. *)
Definition balanceLabel (balance : option JS.number) : string :=
  match balance with
  | Some b => JS.toFixed b 4
  | None => "---"
  end.

(** The number under the Max sendable line of the form,
    [Math.max(0, balance - 0.001).toFixed(4)], shown when the balance is
    known. *)
Definition maxSendableHint (balance : option JS.number) : option string :=
  match balance with
  | Some b =>
      Some (JS.toFixed (JS.Math_max JS.zero (JS.sub b (JS.of_decimal 1 (-3)))) 4)
  | None => None
  end.

(** What the modal shows: nothing, the success panel ([txHash] truthy)
    or the form. *)
Inductive Panel : Type := Closed | SuccessPanel | FormPanel.

Definition modal (s : State) : Panel :=
  if showSendModal s then
    if hash_shown s then SuccessPanel else FormPanel
  else Closed.

(** [setCopied(b)]. *)
Definition with_copied (b : bool) (s : State) : State :=
  {| balance := balance s; copied := b; showSendModal := showSendModal s;
     recipient := recipient s; amount := amount s; txHash := txHash s;
     txError := txError s; sending := sending s |}.

End View.

(** The state of a render once a success is recorded: the transaction
    identifier stored, the form emptied, no error, [sending] cleared. *)
Definition recorded (s : State) (sig : string) : State :=
  {| balance := balance s; copied := copied s; showSendModal := showSendModal s;
     recipient := ""; amount := ""; txHash := Some sig; txError := "";
     sending := false |}.

(** ** The dashboard as a transition system

    One step is one thing that can happen to a mounted dashboard: a run
    of [refreshBalance] (the effect, the interval or the refresh
    button), a click on a control that the render offers and does not
    disable, an edit of a form field, or the clipboard timer. The form's
    own [required] and [step] checks of the browser are left out: a
    submit is possible here with any field contents. Each step has the
    world and the hook of its own render. A run of a handler is one
    step: what other events do between its awaits is not modelled. *)

Section Steps.
Context {PublicKey Instruction Hook : Type}.
Variable hasKey : Hook -> bool.
Variable refreshBalance :
  World PublicKey Instruction -> Hook -> Prog.t (E := action PublicKey Instruction) unit.
Variable handleSendTransaction :
  World PublicKey Instruction -> Hook -> State ->
  Prog.t (E := action PublicKey Instruction) unit.

Inductive step : State -> State -> Prop :=
| step_refresh (w : World PublicKey Instruction) (h : Hook) (s : State) :
    step s (after (refreshBalance w h) s)
| step_copy (h : Hook) (s : State) :
    hasKey h = true ->
    step s (View.with_copied true s)
| step_copy_timeout (s : State) :
    step s (View.with_copied false s)
| step_open (h : Hook) (s : State) :
    View.sendDisabled (hasKey h) (balance s) = false ->
    step s (update (SetShowSendModal true : action PublicKey Instruction) s)
| step_recipient (r : string) (s : State) :
    View.modal s = View.FormPanel -> sending s = false ->
    step s (update (SetRecipient r : action PublicKey Instruction) s)
| step_amount (a : string) (s : State) :
    View.modal s = View.FormPanel -> sending s = false ->
    step s (update (SetAmount a : action PublicKey Instruction) s)
| step_submit (w : World PublicKey Instruction) (h : Hook) (s : State) :
    View.modal s = View.FormPanel -> sending s = false ->
    step s (after (handleSendTransaction w h s) s)
| step_cancel (s : State) :
    View.modal s = View.FormPanel -> sending s = false ->
    step s (after (onCancel (PublicKey := PublicKey) (Instruction := Instruction)) s)
| step_close (s : State) :
    View.modal s = View.SuccessPanel ->
    step s (after (onClose (PublicKey := PublicKey) (Instruction := Instruction)) s).

(** The states a dashboard can be in, from its mounting on. *)
Inductive reachable : State -> Prop :=
| reach_mount : reachable initial
| reach_step (s s' : State) : reachable s -> step s s' -> reachable s'.

End Steps.

(** What holds of a dashboard at every moment: an open modal has a
    known balance under it, the two outcomes are never shown together,
    and while the success panel is shown the form is empty. *)
Definition dashboard_invariant (s : State) : Prop :=
  (showSendModal s = true -> exists b, balance s = Some b)
  /\ hash_shown s && error_shown s = false
  /\ (hash_shown s = true -> recipient s = "" /\ amount s = "").

(** The two dashboards as such systems. *)
Definition direct_reachable {PublicKey Instruction : Type} : State -> Prop :=
  reachable (PublicKey := PublicKey) (Instruction := Instruction)
    (fun h => match Direct.smartWalletPubkey h with Some _ => true | None => false end)
    Direct.refreshBalance Direct.handleSendTransaction.

Definition standard_reachable {PublicKey Instruction : Type} : State -> Prop :=
  reachable (PublicKey := PublicKey) (Instruction := Instruction)
    (fun h => match Standard.publicKey h with Some _ => true | None => false end)
    Standard.refreshBalance Standard.handleSendTransaction.

(** ** Sample worlds, wallets and form contents *)

Module Sample.

(** A key is named by its base58 text. *)
Definition Key : Type := string.

Definition is_base58 (c : ascii) : bool :=
  JS.includes "123456789ABCDEFGHJKLMNPQRSTUVWXYZabcdefghijkmnopqrstuvwxyz"
              (String c EmptyString).

Fixpoint all_base58 (s : string) : bool :=
  match s with
  | String c s' => is_base58 c && all_base58 s'
  | EmptyString => true
  end.

(** A stand-in for [new PublicKey(text)]: base58 text of 32 to 44
    characters, or the constructor's error. *)
Definition key_of (text : string) : result Key :=
  let n := Z.of_nat (String.length text) in
  if all_base58 text && (32 <=? n) && (n <=? 44) then Ok text
  else Throw (ErrorObj "Invalid public key input").

(** A world whose provider answers [sent] and whose RPC node answers
    [queried]. *)
Definition world (sent : result string) (queried : result JS.number)
  : World Key (TransferParams Key) := {|
  PublicKey_new := key_of;
  SystemProgram_transfer := fun p => Ok p;
  signAndSend := fun _ => sent;
  getBalance := fun _ => queried
|}.

Definition me : Key := "4Nd1mYw7rXkWq3zJ8vZcPpT2uHs9LbGfA6RtQeXyKoVi".
Definition you : string := "11111111111111111111111111111111".

Definition direct_hook : Direct.Hook (PublicKey := Key) := {|
  Direct.smartWalletPubkey := Some me;
  Direct.wallet := Some {| Direct.smartWallet := me |};
  Direct.isConnected := true;
  Direct.isConnecting := false
|}.

Definition direct_off : Direct.Hook (PublicKey := Key) := {|
  Direct.smartWalletPubkey := None;
  Direct.wallet := None;
  Direct.isConnected := false;
  Direct.isConnecting := false
|}.

Definition standard_hook : Standard.Hook (PublicKey := Key) := {|
  Standard.publicKey := Some me;
  Standard.connected := true
|}.

Definition standard_off : Standard.Hook (PublicKey := Key) := {|
  Standard.publicKey := None;
  Standard.connected := false
|}.

(** The send form open over a known balance. *)
Definition form (bal : option JS.number) (to amt : string) : State := {|
  balance := bal;
  copied := false;
  showSendModal := true;
  recipient := to;
  amount := amt;
  txHash := None;
  txError := "";
  sending := false
|}.

Definition one_sol : JS.number := JS.of_Z 1.

(** The provider confirms, the node reports 0.499 SOL. *)
Definition world_ok : World Key (TransferParams Key) :=
  world (Ok "5x7y") (Ok (JS.of_Z 499000000)).

(** The provider confirms, the balance query fails. *)
Definition world_rpc_down : World Key (TransferParams Key) :=
  world (Ok "5x7y") (Throw (ErrorObj "failed to fetch")).

(** The provider rejects with an [Error] whose message is empty. *)
Definition world_silent_error : World Key (TransferParams Key) :=
  world (Throw (ErrorObj "")) (Ok (JS.of_Z 1000000000)).

(** The dashboard at rest: the balance is known, the modal is closed. *)
Definition idle : State := {|
  balance := Some one_sol;
  copied := false;
  showSendModal := false;
  recipient := "";
  amount := "";
  txHash := None;
  txError := "";
  sending := false
|}.

Definition form_half : State := form (Some one_sol) you "0.5".
Definition form_reserve : State := form (Some one_sol) you "0.9995".
Definition form_drift : State := form (Some one_sol) you "0.0041".

(** The balance stored for 1200000 lamports, and the form asking for
    0.0002 SOL, that is 200000 lamports. *)
Definition form_boundary : State :=
  form (Some (JS.div (JS.of_Z 1200000) LAMPORTS_PER_SOL)) you "0.0002".


(** A dashboard freshly mounted, refreshed, with the send modal opened. *)
Definition opened : State :=
  update (SetShowSendModal true : action Key (TransferParams Key))
         (after (Direct.refreshBalance world_ok direct_hook) initial).

End Sample.

(** ** Facts about programs and traces *)

Section TraceFacts.
Context {PublicKey Instruction : Type}.
Implicit Types (s : State) (tr : list (action PublicKey Instruction)).

Lemma run_app tr1 tr2 s : run (tr1 ++ tr2)%list s = run tr2 (run tr1 s).
Proof. unfold run. apply fold_left_app. Qed.

(** The record is its eight cells. *)
Lemma State_eta s :
  {| balance := balance s; copied := copied s; showSendModal := showSendModal s;
     recipient := recipient s; amount := amount s; txHash := txHash s;
     txError := txError s; sending := sending s |} = s.
Proof. destruct s; reflexivity. Qed.

(** No handler can make a known balance unknown: [setBalance] is only
    ever given a number. *)
Lemma run_balance_known tr s b :
  balance s = Some b -> exists b', balance (run tr s) = Some b'.
Proof.
  revert s b. induction tr as [|a tr IH]; intros s b Hb.
  - exists b. exact Hb.
  - destruct a; simpl; try (apply (IH _ b); simpl; exact Hb).
    apply (IH _ b0). reflexivity.
Qed.

Lemma checkAmount_trace amt bal :
  Prog.trace (checkAmount (PublicKey := PublicKey) (Instruction := Instruction) amt bal)
  = [].
Proof.
  unfold checkAmount, Prog.bind, Prog.throw, Prog.ret, Prog.trace.
  destruct (JS.isNaN (JS.parseFloat amt) || JS.le (JS.parseFloat amt) JS.zero);
    [reflexivity|].
  destruct bal as [b|]; [|reflexivity].
  destruct (JS.gt (JS.parseFloat amt) b); [reflexivity|].
  destruct (JS.gt (JS.parseFloat amt) _); reflexivity.
Qed.

End TraceFacts.

(** ** Facts about the numbers *)

Lemma RENT_RESERVE_value : RENT_RESERVE = S754_finite false 4611686018427388 (-62).
Proof. vm_compute. reflexivity. Qed.

(** [(balance || 0) - RENT_RESERVE] is [balance - RENT_RESERVE] for a
    balance that is a finite number. *)
Lemma sub_balance_or_0 (b : JS.number) :
  JS.isFinite b = true ->
  JS.sub (balance_or_0 (Some b)) RENT_RESERVE = JS.sub b RENT_RESERVE.
Proof.
  rewrite RENT_RESERVE_value.
  destruct b as [sb|sb| |sb mb eb]; simpl; intros H; try discriminate; reflexivity.
Qed.

(** An infinite amount exceeds every finite balance. *)
Lemma infinite_amount (a b : JS.number) :
  JS.isFinite b = true -> JS.isFinite a = false ->
  JS.isNaN a || JS.le a JS.zero || JS.gt a b = true.
Proof.
  destruct a as [sa|sa| |sa ma ea]; simpl; intros Hb Ha; try discriminate;
    [|reflexivity].
  destruct sa; [reflexivity|].
  destruct b as [sb|sb| |sb mb eb]; try discriminate; reflexivity.
Qed.

Section Validation.
Context {PublicKey Instruction : Type}.

(** The rules of the code are the rule of the specification. *)
Lemma checkAmount_rejects (amt : string) (b : JS.number) :
  JS.isFinite b = true ->
  Prog.throws (checkAmount (PublicKey := PublicKey) (Instruction := Instruction)
            amt (Some b))
  = spec_rejects (JS.parseFloat amt) b.
Proof.
  intros Hb. unfold Prog.throws, checkAmount, spec_rejects.
  rewrite (sub_balance_or_0 b Hb).
  set (a := JS.parseFloat amt).
  set (m := JS.Math_max JS.zero (JS.sub b RENT_RESERVE)).
  destruct (JS.isFinite a) eqn:Hfin.
  - assert (Hnan : JS.isNaN a = false) by (destruct a; try discriminate; reflexivity).
    rewrite Hnan. simpl negb. rewrite orb_false_r. simpl orb.
    destruct (JS.le a JS.zero); [reflexivity|].
    cbn [Prog.bind Prog.ret Prog.throw Prog.outcome snd orb].
    destruct (JS.gt a b); [reflexivity|].
    cbn [Prog.bind Prog.ret Prog.throw Prog.outcome snd orb].
    destruct (JS.gt a m); reflexivity.
  - pose proof (infinite_amount a b Hb Hfin) as Hinf.
    simpl negb. rewrite orb_true_r. simpl orb.
    destruct (JS.isNaN a || JS.le a JS.zero); [reflexivity|].
    simpl in Hinf. cbn [Prog.bind Prog.ret Prog.throw Prog.outcome snd].
    rewrite Hinf. reflexivity.
Qed.

End Validation.

(** ** The shape of a run of [handleSendTransaction] *)

Ltac prog_step :=
  cbn [Prog.bind Prog.try_catch Prog.finally Prog.call Prog.emit Prog.ret
       Prog.throw Prog.trace Prog.outcome fst snd app negb orb].

(** Replace the run of [checkAmount] by its outcome: its trace is empty. *)
Ltac split_checkAmount :=
  match goal with
  | |- context [@checkAmount ?P ?I ?amt ?bal] =>
      let tr := fresh "tr" in
      let r := fresh "r" in
      let Htr := fresh "Htr" in
      pose proof (@checkAmount_trace P I amt bal) as Htr;
      destruct (@checkAmount P I amt bal) as [tr r];
      cbn [Prog.trace Prog.outcome fst snd] in *; subst tr
  end.

Section DirectRuns.
Context {PublicKey Instruction : Type}.
Variable w : World PublicKey Instruction.
Variable h : Direct.Hook (PublicKey := PublicKey).
Variable s : State.
Variable from : PublicKey.
Variable info : Direct.WalletInfo.
Hypothesis Hkey : Direct.smartWalletPubkey h = Some from.
Hypothesis Hconnected : Direct.isConnected h = true.
Hypothesis Hwallet : Direct.wallet h = Some info.


Lemma direct_rejected to e :
  PublicKey_new w (JS.trim (recipient s)) = Ok to ->
  Prog.outcome (checkAmount (PublicKey := PublicKey) (Instruction := Instruction)
                  (amount s) (balance s)) = Throw e ->
  Direct.handleSendTransaction w h s =
  ([SetTxError ""; SetTxHash None; SetSending true; NewPublicKey (JS.trim (recipient s));
    ConsoleError "Transaction failed:" e;
    SetTxError (Direct.errorMessage (balance s) e); SetSending false], Ok tt).
Proof.
  intros Hnew Hcheck. unfold Direct.handleSendTransaction, Direct.attempt.
  rewrite Hkey, Hconnected, Hwallet, Hnew.
  split_checkAmount. subst. reflexivity.
Qed.

Lemma direct_accepted to a :
  PublicKey_new w (JS.trim (recipient s)) = Ok to ->
  Prog.outcome (checkAmount (PublicKey := PublicKey) (Instruction := Instruction)
                  (amount s) (balance s)) = Ok a ->
  exists rest,
    Prog.trace (Direct.handleSendTransaction w h s) =
    SetTxError "" :: SetTxHash None :: SetSending true :: NewPublicKey (JS.trim (recipient s)) ::
    Transfer {| fromPubkey := from; toPubkey := to;
                lamports := JS.mul a LAMPORTS_PER_SOL |} :: rest.
Proof.
  intros Hnew Hcheck. unfold Direct.handleSendTransaction, Direct.attempt.
  rewrite Hkey, Hconnected, Hwallet, Hnew.
  split_checkAmount. subst. prog_step.
  destruct (SystemProgram_transfer w _) as [i|e]; prog_step; [|eexists; reflexivity].
  destruct (signAndSend w [i]) as [sig|e]; prog_step; [|eexists; reflexivity].
  destruct (Direct.refreshBalance w h) as [tr r]. prog_step.
  destruct r; eexists; reflexivity.
Qed.

End DirectRuns.

Section StandardRuns.
Context {PublicKey Instruction : Type}.
Variable w : World PublicKey Instruction.
Variable h : Standard.Hook (PublicKey := PublicKey).
Variable s : State.
Variable from : PublicKey.
Hypothesis Hkey : Standard.publicKey h = Some from.
Hypothesis Hconnected : Standard.connected h = true.


Lemma standard_rejected to e :
  PublicKey_new w (JS.trim (recipient s)) = Ok to ->
  Prog.outcome (checkAmount (PublicKey := PublicKey) (Instruction := Instruction)
                  (amount s) (balance s)) = Throw e ->
  Standard.handleSendTransaction w h s =
  ([SetTxError ""; SetTxHash None; SetSending true; NewPublicKey (JS.trim (recipient s));
    ConsoleError "Transaction failed:" e;
    SetTxError (Standard.errorMessage (balance s) e); SetSending false], Ok tt).
Proof.
  intros Hnew Hcheck. unfold Standard.handleSendTransaction, Standard.attempt.
  rewrite Hkey, Hconnected, Hnew.
  split_checkAmount. subst. reflexivity.
Qed.

Lemma standard_accepted to a :
  PublicKey_new w (JS.trim (recipient s)) = Ok to ->
  Prog.outcome (checkAmount (PublicKey := PublicKey) (Instruction := Instruction)
                  (amount s) (balance s)) = Ok a ->
  exists rest,
    Prog.trace (Standard.handleSendTransaction w h s) =
    SetTxError "" :: SetTxHash None :: SetSending true :: NewPublicKey (JS.trim (recipient s)) ::
    Transfer {| fromPubkey := from; toPubkey := to;
                lamports := JS.mul a LAMPORTS_PER_SOL |} :: rest.
Proof.
  intros Hnew Hcheck. unfold Standard.handleSendTransaction, Standard.attempt.
  rewrite Hkey, Hconnected, Hnew.
  split_checkAmount. subst. prog_step.
  destruct (SystemProgram_transfer w _) as [i|e]; prog_step; [|eexists; reflexivity].
  destruct (signAndSend w [i]) as [sig|e]; prog_step; [|eexists; reflexivity].
  destruct (Standard.refreshBalance w h) as [tr r]. prog_step.
  destruct r; eexists; reflexivity.
Qed.

End StandardRuns.

Section QuietTraces.
Context {PublicKey Instruction : Type}.
Implicit Types (tr : list (action PublicKey Instruction)).

Lemma run_quiet tr (s : State) : quiet tr = true -> run tr s = s.
Proof.
  revert s. induction tr as [|a tr IH]; intros s H; [reflexivity|].
  simpl in H. apply andb_prop in H. destruct H as [Ha Htr].
  change (run (a :: tr) s) with (run tr (update a s)).
  destruct a; simpl in Ha; try discriminate; simpl update; apply IH; exact Htr.
Qed.

Lemma quiet_no_balance tr : quiet tr = true -> existsb touches_balance tr = false.
Proof.
  induction tr as [|a tr IH]; intros H; [reflexivity|].
  simpl in H. apply andb_prop in H. destruct H as [Ha Htr].
  apply andb_prop in Ha. destruct Ha as [_ Ha].
  simpl. rewrite (IH Htr). destruct (touches_balance a); [discriminate|reflexivity].
Qed.
End QuietTraces.

(** ** Every run of the direct handler *)

Section DirectCases.
Context {PublicKey Instruction : Type}.
Variable w : World PublicKey Instruction.
Variable h : Direct.Hook (PublicKey := PublicKey).

Lemma direct_refresh_cases :
  Direct.refreshBalance w h = ([], Ok tt)
  \/ (exists pk e, Direct.smartWalletPubkey h = Some pk /\ getBalance w pk = Throw e /\
        Direct.refreshBalance w h =
        ([GetBalance pk; ConsoleError "Balance refresh error:" e], Ok tt))
  \/ (exists pk n, Direct.smartWalletPubkey h = Some pk /\ getBalance w pk = Ok n /\
        Direct.refreshBalance w h =
        ([GetBalance pk; SetBalance (JS.div n LAMPORTS_PER_SOL)], Ok tt)).
Proof.
  unfold Direct.refreshBalance.
  destruct (Direct.smartWalletPubkey h) as [pk|]; [|left; reflexivity].
  right. destruct (getBalance w pk) as [n|e] eqn:Hq.
  - right. exists pk, n. prog_step. rewrite Hq. auto.
  - left. exists pk, e. prog_step. rewrite Hq. auto.
Qed.

Lemma direct_refresh_returns : Prog.outcome (Direct.refreshBalance w h) = Ok tt.
Proof.
  destruct direct_refresh_cases as [H|[(pk & e & _ & _ & H)|(pk & n & _ & _ & H)]];
    rewrite H; reflexivity.
Qed.

Lemma direct_refresh_keeps_form (s : State) :
  let s' := after (Direct.refreshBalance w h) s in
  recipient s' = recipient s /\ amount s' = amount s /\ txHash s' = txHash s
  /\ txError s' = txError s /\ showSendModal s' = showSendModal s.
Proof.
  unfold after.
  destruct direct_refresh_cases as [H|[(pk & e & _ & _ & H)|(pk & n & _ & _ & H)]];
    rewrite H; simpl; auto.
Qed.

Variable s : State.

(** A run either fails, and ends in the [catch] block, or succeeds,
    and ends with the refresh of the balance. *)
Lemma direct_handle_cases :
  (exists e pre,
      Prog.outcome (Direct.attempt w h s) = Throw e /\ quiet pre = true /\
      Direct.handleSendTransaction w h s =
      ((SetTxError "" :: SetTxHash None :: SetSending true :: pre) ++
         [ConsoleError "Transaction failed:" e;
          SetTxError (Direct.errorMessage (balance s) e); SetSending false],
       Ok tt)%list)
  \/
  (exists sig pre,
      Prog.outcome (Direct.attempt w h s) = Ok tt /\ quiet pre = true /\
      Direct.handleSendTransaction w h s =
      ((SetTxError "" :: SetTxHash None :: SetSending true :: pre) ++
         SetTxHash (Some sig) :: SetRecipient "" :: SetAmount "" ::
         Prog.trace (Direct.refreshBalance w h) ++ [SetSending false],
       Ok tt)%list).
Proof.
  unfold Direct.handleSendTransaction, Direct.attempt.
  destruct (Direct.smartWalletPubkey h) as [from|];
    [|left; exists (ErrorObj "Wallet not connected"), []; auto].
  prog_step.
  destruct (negb (Direct.isConnected h)
            || match Direct.wallet h with Some _ => false | None => true end);
    [left; exists (ErrorObj "Please reconnect your wallet"), []; auto|].
  prog_step.
  set (text := JS.trim (recipient s)).
  destruct (PublicKey_new w text) as [to|e];
    [|left; exists e, [NewPublicKey text]; auto].
  prog_step. split_checkAmount.
  destruct r as [a|e]; [|left; exists e, [NewPublicKey text]; auto].
  prog_step.
  set (params := {| fromPubkey := from; toPubkey := to;
                    lamports := JS.mul a LAMPORTS_PER_SOL |}).
  destruct (SystemProgram_transfer w params) as [i|e];
    [|left; exists e, [NewPublicKey text; Transfer params]; auto].
  prog_step.
  destruct (signAndSend w [i]) as [sig|e];
    [|left; exists e, [NewPublicKey text; Transfer params;
                       ConsoleLog "Attempting to sign transaction...";
                       SignAndSend [i]]; auto].
  prog_step. pose proof direct_refresh_returns as Hret.
  destruct (Direct.refreshBalance w h) as [tr r]. simpl in Hret. subst r.
  right. exists sig, [NewPublicKey text; Transfer params;
                      ConsoleLog "Attempting to sign transaction...";
                      SignAndSend [i]; ConsoleLog "Transaction successful:"].
  auto.
Qed.

End DirectCases.

(** ** Every run of the wallet-standard handler *)

Section StandardCases.
Context {PublicKey Instruction : Type}.
Variable w : World PublicKey Instruction.
Variable h : Standard.Hook (PublicKey := PublicKey).

Lemma standard_refresh_cases :
  Standard.refreshBalance w h = ([], Ok tt)
  \/ (exists pk e, Standard.publicKey h = Some pk /\ getBalance w pk = Throw e /\
        Standard.refreshBalance w h =
        ([GetBalance pk; ConsoleError "Balance refresh error:" e], Ok tt))
  \/ (exists pk n, Standard.publicKey h = Some pk /\ getBalance w pk = Ok n /\
        Standard.refreshBalance w h =
        ([GetBalance pk; SetBalance (JS.div n LAMPORTS_PER_SOL)], Ok tt)).
Proof.
  unfold Standard.refreshBalance.
  destruct (Standard.publicKey h) as [pk|]; [|left; reflexivity].
  right. destruct (getBalance w pk) as [n|e] eqn:Hq.
  - right. exists pk, n. prog_step. rewrite Hq. auto.
  - left. exists pk, e. prog_step. rewrite Hq. auto.
Qed.

Lemma standard_refresh_returns : Prog.outcome (Standard.refreshBalance w h) = Ok tt.
Proof.
  destruct standard_refresh_cases as [H|[(pk & e & _ & _ & H)|(pk & n & _ & _ & H)]];
    rewrite H; reflexivity.
Qed.

Lemma standard_refresh_keeps_form (s : State) :
  let s' := after (Standard.refreshBalance w h) s in
  recipient s' = recipient s /\ amount s' = amount s /\ txHash s' = txHash s
  /\ txError s' = txError s /\ showSendModal s' = showSendModal s.
Proof.
  unfold after.
  destruct standard_refresh_cases as [H|[(pk & e & _ & _ & H)|(pk & n & _ & _ & H)]];
    rewrite H; simpl; auto.
Qed.

Variable s : State.

Lemma standard_handle_cases :
  (exists e pre,
      Prog.outcome (Standard.attempt w h s) = Throw e /\ quiet pre = true /\
      Standard.handleSendTransaction w h s =
      ((SetTxError "" :: SetTxHash None :: SetSending true :: pre) ++
         [ConsoleError "Transaction failed:" e;
          SetTxError (Standard.errorMessage (balance s) e); SetSending false],
       Ok tt)%list)
  \/
  (exists sig pre,
      Prog.outcome (Standard.attempt w h s) = Ok tt /\ quiet pre = true /\
      Standard.handleSendTransaction w h s =
      ((SetTxError "" :: SetTxHash None :: SetSending true :: pre) ++
         SetTxHash (Some sig) :: SetRecipient "" :: SetAmount "" ::
         Prog.trace (Standard.refreshBalance w h) ++ [SetSending false],
       Ok tt)%list).
Proof.
  unfold Standard.handleSendTransaction, Standard.attempt.
  destruct (Standard.publicKey h) as [from|];
    [|left; exists (ErrorObj "Wallet not connected"), []; auto].
  destruct (negb (Standard.connected h));
    [left; exists (ErrorObj "Wallet not connected"), []; auto|].
  prog_step.
  set (text := JS.trim (recipient s)).
  destruct (PublicKey_new w text) as [to|e];
    [|left; exists e, [NewPublicKey text]; auto].
  prog_step. split_checkAmount.
  destruct r as [a|e]; [|left; exists e, [NewPublicKey text]; auto].
  prog_step.
  set (params := {| fromPubkey := from; toPubkey := to;
                    lamports := JS.mul a LAMPORTS_PER_SOL |}).
  destruct (SystemProgram_transfer w params) as [i|e];
    [|left; exists e, [NewPublicKey text; Transfer params]; auto].
  prog_step.
  destruct (signAndSend w [i]) as [sig|e];
    [|left; exists e, [NewPublicKey text; Transfer params;
                       ConsoleLog "Attempting to send transaction...";
                       SignAndSend [i]]; auto].
  prog_step. pose proof standard_refresh_returns as Hret.
  destruct (Standard.refreshBalance w h) as [tr r]. simpl in Hret. subst r.
  right. exists sig, [NewPublicKey text; Transfer params;
                      ConsoleLog "Attempting to send transaction...";
                      SignAndSend [i]; ConsoleLog "Transaction successful:"].
  auto.
Qed.

End StandardCases.

(** Whatever happens, the handler itself returns: the [catch] block
    takes every exception of the [try] block, and neither it nor the
    [finally] block throws. *)
Lemma handleSendTransaction_returns {PublicKey Instruction : Type}
      (w : World PublicKey Instruction) (hd : Direct.Hook)
      (hs : Standard.Hook) (s : State) :
  Prog.outcome (Direct.handleSendTransaction w hd s) = Ok tt
  /\ Prog.outcome (Standard.handleSendTransaction w hs s) = Ok tt.
Proof.
  split.
  - destruct (direct_handle_cases w hd s)
      as [(e & pre & _ & _ & H)|(sig & pre & _ & _ & H)]; rewrite H; reflexivity.
  - destruct (standard_handle_cases w hs s)
      as [(e & pre & _ & _ & H)|(sig & pre & _ & _ & H)]; rewrite H; reflexivity.
Qed.

(** ** The state a run leaves *)

Section FinalStates.
Context {PublicKey Instruction : Type}.
Implicit Types (pre rt : list (action PublicKey Instruction)) (s : State).

Lemma run_nil s : run ([] : list (action PublicKey Instruction)) s = s.
Proof. reflexivity. Qed.

Lemma run_cons (a : action PublicKey Instruction) pre s :
  run (a :: pre) s = run pre (update a s).
Proof. reflexivity. Qed.

Lemma state_after_failure pre s label e m :
  quiet pre = true ->
  run ((SetTxError "" :: SetTxHash None :: SetSending true :: pre) ++
         [ConsoleError label e; SetTxError m; SetSending false])%list s
  = {| balance := balance s; copied := copied s; showSendModal := showSendModal s;
       recipient := recipient s; amount := amount s; txHash := None;
       txError := m; sending := false |}.
Proof.
  intros Hq. rewrite run_app, !run_cons, (run_quiet pre _ Hq). reflexivity.
Qed.

Lemma state_after_success pre rt s sig :
  quiet pre = true ->
  run ((SetTxError "" :: SetTxHash None :: SetSending true :: pre) ++
         SetTxHash (Some sig) :: SetRecipient "" :: SetAmount "" ::
         rt ++ [SetSending false])%list s
  = run (rt ++ [SetSending false])%list
        {| balance := balance s; copied := copied s;
           showSendModal := showSendModal s; recipient := "";
           amount := ""; txHash := Some sig; txError := "";
           sending := true |}.
Proof.
  intros Hq.
  rewrite run_app, !run_cons, (run_quiet pre _ Hq).
  reflexivity.
Qed.

End FinalStates.

(** ** An accepted attempt reaches the provider *)

Section Submission.
Context {PublicKey Instruction : Type}.
Variable w : World PublicKey Instruction.
Variable s : State.

Lemma checkAmount_value (amt : string) (bal : option JS.number) (a : JS.number) :
  Prog.outcome (checkAmount (PublicKey := PublicKey) (Instruction := Instruction)
                  amt bal) = Ok a ->
  a = JS.parseFloat amt.
Proof.
  unfold checkAmount.
  destruct (JS.isNaN (JS.parseFloat amt) || JS.le (JS.parseFloat amt) JS.zero);
    [discriminate|].
  prog_step. destruct bal as [b|]; prog_step;
    [|intros H; injection H as <-; reflexivity].
  destruct (JS.gt (JS.parseFloat amt) b); prog_step; [discriminate|].
  destruct (JS.gt (JS.parseFloat amt) _); prog_step; [discriminate|].
  intros H; injection H as <-; reflexivity.
Qed.

(** With the instruction built, the provider is called with that
    instruction; the identifier it answers is the one stored. *)
Lemma direct_submits (h : Direct.Hook) (from to : PublicKey)
      (info : Direct.WalletInfo) (a : JS.number) (i : Instruction) :
  Direct.smartWalletPubkey h = Some from ->
  Direct.isConnected h = true ->
  Direct.wallet h = Some info ->
  PublicKey_new w (JS.trim (recipient s)) = Ok to ->
  Prog.outcome (checkAmount (PublicKey := PublicKey) (Instruction := Instruction)
                  (amount s) (balance s)) = Ok a ->
  SystemProgram_transfer w {| fromPubkey := from; toPubkey := to;
                              lamports := JS.mul a LAMPORTS_PER_SOL |} = Ok i ->
  In (SignAndSend [i]) (Prog.trace (Direct.handleSendTransaction w h s))
  /\ submitted (Prog.trace (Direct.handleSendTransaction w h s)) = true
  /\ forall sig, signAndSend w [i] = Ok sig ->
       txHash (after (Direct.handleSendTransaction w h s) s) = Some sig.
Proof.
  intros Hk Hc Hw Hnew Hcheck Hbuilt.
  unfold after, Direct.handleSendTransaction, Direct.attempt.
  rewrite Hk, Hc, Hw, Hnew.
  split_checkAmount. subst. prog_step. rewrite Hbuilt. prog_step.
  destruct (signAndSend w [i]) as [sig|e]; prog_step.
  - destruct (direct_refresh_cases w h)
      as [H|[(pk & e & _ & _ & H)|(pk & n & _ & _ & H)]]; rewrite H; prog_step;
      (split; [simpl; tauto|]); (split; [reflexivity|]);
      intros sig' Hs; injection Hs as <-; reflexivity.
  - split; [simpl; tauto|]. split; [reflexivity|]. intros sig' Hs. discriminate Hs.
Qed.

Lemma standard_submits (h : Standard.Hook) (from to : PublicKey)
      (a : JS.number) (i : Instruction) :
  Standard.publicKey h = Some from ->
  Standard.connected h = true ->
  PublicKey_new w (JS.trim (recipient s)) = Ok to ->
  Prog.outcome (checkAmount (PublicKey := PublicKey) (Instruction := Instruction)
                  (amount s) (balance s)) = Ok a ->
  SystemProgram_transfer w {| fromPubkey := from; toPubkey := to;
                              lamports := JS.mul a LAMPORTS_PER_SOL |} = Ok i ->
  In (SignAndSend [i]) (Prog.trace (Standard.handleSendTransaction w h s))
  /\ submitted (Prog.trace (Standard.handleSendTransaction w h s)) = true
  /\ forall sig, signAndSend w [i] = Ok sig ->
       txHash (after (Standard.handleSendTransaction w h s) s) = Some sig.
Proof.
  intros Hk Hc Hnew Hcheck Hbuilt.
  unfold after, Standard.handleSendTransaction, Standard.attempt.
  rewrite Hk, Hc, Hnew.
  split_checkAmount. subst. prog_step. rewrite Hbuilt. prog_step.
  destruct (signAndSend w [i]) as [sig|e]; prog_step.
  - destruct (standard_refresh_cases w h)
      as [H|[(pk & e & _ & _ & H)|(pk & n & _ & _ & H)]]; rewrite H; prog_step;
      (split; [simpl; tauto|]); (split; [reflexivity|]);
      intros sig' Hs; injection Hs as <-; reflexivity.
  - split; [simpl; tauto|]. split; [reflexivity|]. intros sig' Hs. discriminate Hs.
Qed.

End Submission.

(** * The claims *)

(** C1. The balance of 1200000 lamports is stored as the binary64
    number 0.0012, and the form asks for 0.0002 SOL, which is 200000
    lamports: the transfer leaves the reserve of 1000000 lamports whole,
    and the rule of the specification accepts it. The amount passes the
    first two rules of the code, but the binary64 difference
    [0.0012 - 0.001] lies below 0.0002, so the handler of either variant
    refuses the attempt before it builds the transfer; the message it
    sets, like the hint under the amount field, names 0.0002 SOL, the
    very amount asked for, as the most that can be sent. *)
Theorem reserve_boundary_refused :
  balance Sample.form_boundary = Some (JS.parseFloat "0.0012")
  /\ JS.mul (JS.parseFloat "0.0012") LAMPORTS_PER_SOL = JS.of_Z 1200000
  /\ JS.mul (JS.parseFloat (amount Sample.form_boundary)) LAMPORTS_PER_SOL
     = JS.of_Z 200000
  /\ spec_rejects_lamports 200000 1200000 = false
  /\ JS.isNaN (JS.parseFloat (amount Sample.form_boundary))
     || JS.le (JS.parseFloat (amount Sample.form_boundary)) JS.zero = false
  /\ JS.gt (JS.parseFloat (amount Sample.form_boundary)) (JS.parseFloat "0.0012")
     = false
  /\ JS.gt (JS.parseFloat (amount Sample.form_boundary))
           (JS.Math_max JS.zero (JS.sub (JS.parseFloat "0.0012") RENT_RESERVE))
     = true
  /\ View.maxSendableHint (balance Sample.form_boundary) = Some "0.0002"
  /\ accepted (Prog.trace (Direct.handleSendTransaction
                             Sample.world_ok Sample.direct_hook Sample.form_boundary))
     = false
  /\ accepted (Prog.trace (Standard.handleSendTransaction
                             Sample.world_ok Sample.standard_hook Sample.form_boundary))
     = false
  /\ txError (after (Direct.handleSendTransaction
                       Sample.world_ok Sample.direct_hook Sample.form_boundary)
                    Sample.form_boundary)
     = "Amount too high. Keep at least 0.001 SOL for rent. Max sendable: 0.0002 SOL"
  /\ txError (after (Standard.handleSendTransaction
                       Sample.world_ok Sample.standard_hook Sample.form_boundary)
                    Sample.form_boundary)
     = "Amount too high. Keep at least 0.001 SOL for rent. Max sendable: 0.0002 SOL".
Proof. repeat split; vm_compute; reflexivity. Qed.

(** X17. The rule in the arithmetic of the code. With the wallet
    connected, a recipient that parses and a known (finite) balance [b],
    the handler of either variant rejects the attempt exactly when the
    parsed amount [a] is [<= 0] or not a finite number, or [a > b], or
    [a > max(0, b - 0.001)], all of these on binary64 numbers; otherwise
    it goes on to build the transfer. A rejected attempt never reaches
    the provider. An accepted attempt whose instruction is built calls
    the provider with that instruction, and the identifier the provider
    answers is stored. With [b = 1] and the amount text 0.9995 it
    rejects with the reserve message, which reports 0.9990 as the most
    that can be sent. *)
Theorem validation_rule :
  forall (PublicKey Instruction : Type) (w : World PublicKey Instruction)
         (hd : Direct.Hook) (hs : Standard.Hook) (s : State)
         (from to : PublicKey) (info : Direct.WalletInfo) (b : JS.number),
    Direct.smartWalletPubkey hd = Some from ->
    Direct.isConnected hd = true ->
    Direct.wallet hd = Some info ->
    Standard.publicKey hs = Some from ->
    Standard.connected hs = true ->
    PublicKey_new w (JS.trim (recipient s)) = Ok to ->
    balance s = Some b ->
    JS.isFinite b = true ->
    let a := JS.parseFloat (amount s) in
    let reserve_message :=
      "Amount too high. Keep at least 0.001 SOL for rent. Max sendable: 0.9990 SOL" in
    accepted (Prog.trace (Direct.handleSendTransaction w hd s))
      = negb (spec_rejects a b)
    /\ accepted (Prog.trace (Standard.handleSendTransaction w hs s))
      = negb (spec_rejects a b)
    /\ (spec_rejects a b = true ->
        submitted (Prog.trace (Direct.handleSendTransaction w hd s)) = false
        /\ submitted (Prog.trace (Standard.handleSendTransaction w hs s)) = false)
    /\ (spec_rejects a b = false ->
        forall i : Instruction,
          SystemProgram_transfer w {| fromPubkey := from; toPubkey := to;
                                      lamports := JS.mul a LAMPORTS_PER_SOL |} = Ok i ->
          In (SignAndSend [i]) (Prog.trace (Direct.handleSendTransaction w hd s))
          /\ In (SignAndSend [i]) (Prog.trace (Standard.handleSendTransaction w hs s))
          /\ submitted (Prog.trace (Direct.handleSendTransaction w hd s)) = true
          /\ submitted (Prog.trace (Standard.handleSendTransaction w hs s)) = true
          /\ forall sig : string,
               signAndSend w [i] = Ok sig ->
               txHash (after (Direct.handleSendTransaction w hd s) s) = Some sig
               /\ txHash (after (Standard.handleSendTransaction w hs s) s) = Some sig)
    /\ (b = JS.of_Z 1 -> amount s = "0.9995" ->
        spec_rejects a b = true
        /\ JS.toFixed (JS.Math_max JS.zero (JS.sub b RENT_RESERVE)) 4 = "0.9990"
        /\ txError (after (Direct.handleSendTransaction w hd s) s) = reserve_message
        /\ txError (after (Standard.handleSendTransaction w hs s) s) = reserve_message).
Proof.
  intros PublicKey Instruction w hd hs s from to info b
         Hdk Hdc Hdw Hsk Hsc Hnew Hbal Hfin a reserve_message.
  pose proof (checkAmount_rejects (PublicKey := PublicKey)
                (Instruction := Instruction) (amount s) b Hfin) as Hrule.
  fold a in Hrule. rewrite <- Hbal in Hrule. unfold Prog.throws in Hrule.
  destruct (Prog.outcome (checkAmount (amount s) (balance s))) as [v|e] eqn:Hcheck.
  - (* the amount passes: both variants build the transfer *)
    destruct (direct_accepted w hd s from info Hdk Hdc Hdw to v Hnew Hcheck) as [rd Hd].
    destruct (standard_accepted w hs s from Hsk Hsc to v Hnew Hcheck) as [rs Hs].
    assert (Hv : v = a) by exact (checkAmount_value _ _ _ Hcheck).
    split; [rewrite Hd, <- Hrule; reflexivity|].
    split; [rewrite Hs, <- Hrule; reflexivity|].
    split; [rewrite <- Hrule; discriminate|].
    split.
    { intros _ i Hbuilt. rewrite <- Hv in Hbuilt.
      destruct (direct_submits w s hd from to info v i Hdk Hdc Hdw Hnew Hcheck Hbuilt)
        as (Hdi & Hdsub & Hdsig).
      destruct (standard_submits w s hs from to v i Hsk Hsc Hnew Hcheck Hbuilt)
        as (Hsi & Hssub & Hssig).
      repeat (split; [assumption|]).
      intros sig Hsent. split; [exact (Hdsig sig Hsent) | exact (Hssig sig Hsent)]. }
    intros Hb Hamt. exfalso. unfold a in Hrule. rewrite Hamt, Hb in Hrule.
    vm_compute in Hrule. discriminate Hrule.
  - (* the amount fails: both variants end in the catch block *)
    rewrite (direct_rejected w hd s from info Hdk Hdc Hdw to e Hnew Hcheck).
    rewrite (standard_rejected w hs s from Hsk Hsc to e Hnew Hcheck).
    rewrite <- Hrule.
    split; [reflexivity|]. split; [reflexivity|].
    split; [intros _; split; reflexivity|].
    split; [discriminate|].
    intros Hb Hamt. rewrite Hbal, Hamt, Hb in Hcheck.
    assert (e = ErrorObj reserve_message) as ->
        by (vm_compute in Hcheck; injection Hcheck as <-; reflexivity).
    unfold after. cbn [Prog.trace fst run fold_left update txError].
    rewrite Hbal, Hb.
    split; [reflexivity|]. repeat split; vm_compute; reflexivity.
Qed.

Lemma validation_rule_witness :
  accepted (Prog.trace (Direct.handleSendTransaction
                          Sample.world_ok Sample.direct_hook Sample.form_reserve))
  = false
  /\ txError (after (Standard.handleSendTransaction
                       Sample.world_ok Sample.standard_hook Sample.form_reserve)
                    Sample.form_reserve)
     = "Amount too high. Keep at least 0.001 SOL for rent. Max sendable: 0.9990 SOL".
Proof.
  destruct (validation_rule _ _ Sample.world_ok Sample.direct_hook
              Sample.standard_hook Sample.form_reserve Sample.me Sample.you
              {| Direct.smartWallet := Sample.me |} Sample.one_sol
              eq_refl eq_refl eq_refl eq_refl eq_refl eq_refl eq_refl eq_refl)
    as (Hd & _ & _ & _ & Hscenario).
  destruct (Hscenario eq_refl eq_refl) as (Hrej & _ & _ & Hs).
  split; [rewrite Hd, Hrej; reflexivity | exact Hs].
Defined.

(** C9. When the account identifier is absent, [refreshBalance] of
    either variant returns at once: it makes no call, so no balance
    query, and it updates no state cell. *)
Theorem refreshBalance_without_account :
  forall (PublicKey Instruction : Type) (w : World PublicKey Instruction)
         (hd : Direct.Hook) (hs : Standard.Hook) (s : State),
    Direct.smartWalletPubkey hd = None ->
    Standard.publicKey hs = None ->
    Direct.refreshBalance w hd = ([], Ok tt)
    /\ Standard.refreshBalance w hs = ([], Ok tt)
    /\ after (Direct.refreshBalance w hd) s = s
    /\ after (Standard.refreshBalance w hs) s = s.
Proof.
  intros PublicKey Instruction w hd hs s Hd Hs.
  unfold after, Direct.refreshBalance, Standard.refreshBalance.
  rewrite Hd, Hs. repeat split; reflexivity.
Qed.

Lemma refreshBalance_without_account_witness :
  Direct.refreshBalance Sample.world_ok Sample.direct_off = ([], Ok tt)
  /\ balance (after (Standard.refreshBalance Sample.world_ok Sample.standard_off)
                    Sample.form_half) = Some Sample.one_sol.
Proof.
  destruct (refreshBalance_without_account _ _ Sample.world_ok Sample.direct_off
              Sample.standard_off Sample.form_half eq_refl eq_refl)
    as (Hd & _ & _ & Hs).
  split; [exact Hd | rewrite Hs; reflexivity].
Defined.

(** C6. When the balance query throws, [refreshBalance] of either
    variant catches the exception and only logs it: the call returns
    normally and no state cell changes, so a known balance stays
    known. *)
Theorem refreshBalance_failure_swallowed :
  forall (PublicKey Instruction : Type) (w : World PublicKey Instruction)
         (hd : Direct.Hook) (hs : Standard.Hook) (s : State)
         (pk : PublicKey) (e : thrown),
    Direct.smartWalletPubkey hd = Some pk ->
    Standard.publicKey hs = Some pk ->
    getBalance w pk = Throw e ->
    let logged := [GetBalance pk; ConsoleError "Balance refresh error:" e] in
    Direct.refreshBalance w hd = (logged, Ok tt)
    /\ Standard.refreshBalance w hs = (logged, Ok tt)
    /\ after (Direct.refreshBalance w hd) s = s
    /\ after (Standard.refreshBalance w hs) s = s.
Proof.
  intros PublicKey Instruction w hd hs s pk e Hd Hs Hq logged.
  unfold after, Direct.refreshBalance, Standard.refreshBalance.
  rewrite Hd, Hs. prog_step. rewrite Hq. repeat split; reflexivity.
Qed.

Lemma refreshBalance_failure_swallowed_witness :
  Prog.outcome (Direct.refreshBalance Sample.world_rpc_down Sample.direct_hook) = Ok tt
  /\ balance (after (Standard.refreshBalance Sample.world_rpc_down Sample.standard_hook)
                    Sample.form_half) = Some Sample.one_sol.
Proof.
  destruct (refreshBalance_failure_swallowed _ _ Sample.world_rpc_down
              Sample.direct_hook Sample.standard_hook Sample.form_half
              Sample.me (ErrorObj "failed to fetch") eq_refl eq_refl eq_refl)
    as (Hd & _ & _ & Hs).
  split; [rewrite Hd; reflexivity | rewrite Hs; reflexivity].
Defined.




(** C10. A failed attempt, whether a check or the provider fails,
    leaves the recipient and amount cells as they were; a successful one
    empties them, and so does the Cancel button. *)
Theorem form_kept_on_failure :
  forall (PublicKey Instruction : Type) (w : World PublicKey Instruction)
         (hd : Direct.Hook) (hs : Standard.Hook) (s : State),
    (failed (Direct.attempt w hd s) ->
     recipient (after (Direct.handleSendTransaction w hd s) s) = recipient s
     /\ amount (after (Direct.handleSendTransaction w hd s) s) = amount s)
    /\ (failed (Standard.attempt w hs s) ->
        recipient (after (Standard.handleSendTransaction w hs s) s) = recipient s
        /\ amount (after (Standard.handleSendTransaction w hs s) s) = amount s)
    /\ (succeeded (Direct.attempt w hd s) ->
        recipient (after (Direct.handleSendTransaction w hd s) s) = ""
        /\ amount (after (Direct.handleSendTransaction w hd s) s) = "")
    /\ (succeeded (Standard.attempt w hs s) ->
        recipient (after (Standard.handleSendTransaction w hs s) s) = ""
        /\ amount (after (Standard.handleSendTransaction w hs s) s) = "")
    /\ recipient (after (onCancel (PublicKey := PublicKey)
                                  (Instruction := Instruction)) s) = ""
    /\ amount (after (onCancel (PublicKey := PublicKey)
                               (Instruction := Instruction)) s) = "".
Proof.
  intros PublicKey Instruction w hd hs s.
  pose proof (direct_handle_cases w hd s) as Hd.
  pose proof (standard_handle_cases w hs s) as Hs.
  repeat match goal with |- _ /\ _ => split end; try reflexivity.
  - intros [e' He'].
    destruct Hd as [(e & pre & Hout & Hq & H)|(sig & pre & Hout & Hq & H)];
      [|rewrite Hout in He'; discriminate He'].
    unfold after. rewrite H. cbn [Prog.trace fst].
    rewrite (state_after_failure pre s _ _ _ Hq). split; reflexivity.
  - intros [e' He'].
    destruct Hs as [(e & pre & Hout & Hq & H)|(sig & pre & Hout & Hq & H)];
      [|rewrite Hout in He'; discriminate He'].
    unfold after. rewrite H. cbn [Prog.trace fst].
    rewrite (state_after_failure pre s _ _ _ Hq). split; reflexivity.
  - intros [u Hu].
    destruct Hd as [(e & pre & Hout & Hq & H)|(sig & pre & Hout & Hq & H)];
      [rewrite Hout in Hu; discriminate Hu|].
    unfold after. rewrite H. cbn [Prog.trace fst].
    rewrite (state_after_success pre _ s sig Hq), run_app, run_cons, run_nil.
    cbn [update recipient amount].
    destruct (direct_refresh_keeps_form w hd
                {| balance := balance s; copied := copied s;
                   showSendModal := showSendModal s; recipient := "";
                   amount := ""; txHash := Some sig; txError := "";
                   sending := true |}) as (Hr & Ha & _).
    unfold after in Hr, Ha. rewrite Hr, Ha. split; reflexivity.
  - intros [u Hu].
    destruct Hs as [(e & pre & Hout & Hq & H)|(sig & pre & Hout & Hq & H)];
      [rewrite Hout in Hu; discriminate Hu|].
    unfold after. rewrite H. cbn [Prog.trace fst].
    rewrite (state_after_success pre _ s sig Hq), run_app, run_cons, run_nil.
    cbn [update recipient amount].
    destruct (standard_refresh_keeps_form w hs
                {| balance := balance s; copied := copied s;
                   showSendModal := showSendModal s; recipient := "";
                   amount := ""; txHash := Some sig; txError := "";
                   sending := true |}) as (Hr & Ha & _).
    unfold after in Hr, Ha. rewrite Hr, Ha. split; reflexivity.
Qed.

Lemma form_kept_on_failure_witness :
  recipient (after (Direct.handleSendTransaction
                      Sample.world_silent_error Sample.direct_hook Sample.form_half)
                   Sample.form_half) = Sample.you
  /\ amount (after (Standard.handleSendTransaction
                      Sample.world_ok Sample.standard_hook Sample.form_half)
                   Sample.form_half) = "".
Proof.
  split.
  - destruct (form_kept_on_failure _ _ Sample.world_silent_error Sample.direct_hook
                Sample.standard_hook Sample.form_half) as (Hfail & _).
    destruct (Hfail (ex_intro _ (ErrorObj "") eq_refl)) as [Hr _]. exact Hr.
  - destruct (form_kept_on_failure _ _ Sample.world_ok Sample.direct_hook
                Sample.standard_hook Sample.form_half) as (_ & _ & _ & Hok & _).
    destruct (Hok (ex_intro _ tt eq_refl)) as [_ Ha]. exact Ha.
Defined.

(** ** The order of the success path *)

Lemma quiet_then_success {PublicKey Instruction : Type}
      (pre rest : list (action PublicKey Instruction)) (sig : string) :
  quiet pre = true ->
  balance_set_before_success (pre ++ SetTxHash (Some sig) :: rest)%list = false.
Proof.
  induction pre as [|a pre IH]; intros H; [reflexivity|].
  simpl in H. apply andb_prop in H. destruct H as [Ha Hpre].
  destruct a; simpl in Ha; try discriminate; simpl; apply IH; exact Hpre.
Qed.

(** C3, as the claim states it, fails: in this successful run of either
    variant no balance update comes before the transaction identifier
    is stored. *)
Lemma refresh_before_success_counterexample :
  ~ (succeeded (Direct.attempt Sample.world_ok Sample.direct_hook Sample.form_half) ->
     balance_set_before_success
       (Prog.trace (Direct.handleSendTransaction
                      Sample.world_ok Sample.direct_hook Sample.form_half)) = true)
  /\ ~ (succeeded (Standard.attempt Sample.world_ok Sample.standard_hook
                     Sample.form_half) ->
        balance_set_before_success
          (Prog.trace (Standard.handleSendTransaction
                         Sample.world_ok Sample.standard_hook Sample.form_half)) = true).
Proof.
  split; intros H; specialize (H (ex_intro _ tt eq_refl));
    vm_compute in H; discriminate H.
Qed.

(** C3, amended. On a successful submission the handler of either
    variant first stores the transaction identifier and empties the
    form, and only then runs [refreshBalance]; nothing before that point
    queries or stores the balance, and the [sending] flag is cleared
    after the refresh. *)
Theorem success_recorded_before_refresh :
  forall (PublicKey Instruction : Type) (w : World PublicKey Instruction)
         (hd : Direct.Hook) (hs : Standard.Hook) (s : State),
    (succeeded (Direct.attempt w hd s) ->
     exists sig pre,
       quiet pre = true
       /\ Prog.trace (Direct.handleSendTransaction w hd s) =
          ((SetTxError "" :: SetTxHash None :: SetSending true :: pre) ++
             SetTxHash (Some sig) :: SetRecipient "" :: SetAmount "" ::
             Prog.trace (Direct.refreshBalance w hd) ++ [SetSending false])%list
       /\ balance_set_before_success
            (Prog.trace (Direct.handleSendTransaction w hd s)) = false)
    /\ (succeeded (Standard.attempt w hs s) ->
        exists sig pre,
          quiet pre = true
          /\ Prog.trace (Standard.handleSendTransaction w hs s) =
             ((SetTxError "" :: SetTxHash None :: SetSending true :: pre) ++
                SetTxHash (Some sig) :: SetRecipient "" :: SetAmount "" ::
                Prog.trace (Standard.refreshBalance w hs) ++ [SetSending false])%list
          /\ balance_set_before_success
               (Prog.trace (Standard.handleSendTransaction w hs s)) = false).
Proof.
  intros PublicKey Instruction w hd hs s. split; intros [u Hu].
  - destruct (direct_handle_cases w hd s)
      as [(e & pre & Hout & Hq & H)|(sig & pre & Hout & Hq & H)];
      [rewrite Hout in Hu; discriminate Hu|].
    exists sig, pre. rewrite H. cbn [Prog.trace fst].
    split; [exact Hq|]. split; [reflexivity|].
    change ((SetTxError "" :: SetTxHash None :: SetSending true :: pre) ++ ?l)%list
      with (SetTxError "" :: SetTxHash None :: SetSending true :: (pre ++ l))%list.
    cbn [balance_set_before_success]. apply quiet_then_success. exact Hq.
  - destruct (standard_handle_cases w hs s)
      as [(e & pre & Hout & Hq & H)|(sig & pre & Hout & Hq & H)];
      [rewrite Hout in Hu; discriminate Hu|].
    exists sig, pre. rewrite H. cbn [Prog.trace fst].
    split; [exact Hq|]. split; [reflexivity|].
    change ((SetTxError "" :: SetTxHash None :: SetSending true :: pre) ++ ?l)%list
      with (SetTxError "" :: SetTxHash None :: SetSending true :: (pre ++ l))%list.
    cbn [balance_set_before_success]. apply quiet_then_success. exact Hq.
Qed.

Lemma success_recorded_before_refresh_witness :
  exists sig pre,
    quiet pre = true
    /\ Prog.trace (Direct.handleSendTransaction
                     Sample.world_ok Sample.direct_hook Sample.form_half) =
       ((SetTxError "" :: SetTxHash None :: SetSending true :: pre) ++
          SetTxHash (Some sig) :: SetRecipient "" :: SetAmount "" ::
          Prog.trace (Direct.refreshBalance Sample.world_ok Sample.direct_hook) ++
          [SetSending false])%list
    /\ balance_set_before_success
         (Prog.trace (Direct.handleSendTransaction
                        Sample.world_ok Sample.direct_hook Sample.form_half)) = false.
Proof.
  destruct (success_recorded_before_refresh _ _ Sample.world_ok Sample.direct_hook
              Sample.standard_hook Sample.form_half) as [Hd _].
  exact (Hd (ex_intro _ tt eq_refl)).
Defined.

(** C2, as the claim states it, fails in the wallet-standard variant:
    the dashboard stays mounted across a disconnect, and the render that
    follows still holds the balance it had. *)
Lemma disconnect_resets_counterexample :
  ~ (forall s' : State,
        Standard.rerender Sample.world_ok Sample.standard_hook
                          Sample.standard_off Sample.idle = Some s' ->
        balance s' = None).
Proof.
  intros H. specialize (H Sample.idle eq_refl). discriminate H.
Qed.

(** C2, amended. In the direct variant a disconnect unmounts the
    dashboard, so its state cells are dropped, and a dashboard mounted
    later starts from the initial cells: balance unknown, empty form,
    modal closed. In the wallet-standard variant the dashboard stays
    mounted and the disconnect only runs the cleanup of the polling
    effect: every state cell, the balance and the send form included,
    is kept. *)
Theorem disconnect_state :
  forall (PublicKey Instruction : Type) (w : World PublicKey Instruction)
         (od nd hd : Direct.Hook (PublicKey := PublicKey))
         (os ns : Standard.Hook (PublicKey := PublicKey)) (s : State),
    Direct.isConnected nd = false ->
    Direct.AppContent hd = Direct.WalletDashboard ->
    Standard.publicKey ns = None ->
    Direct.rerender w od nd s = None
    /\ Direct.mounted hd None = Some initial
    /\ (balance initial = None /\ recipient initial = "" /\ amount initial = ""
        /\ txError initial = "" /\ showSendModal initial = false)
    /\ Standard.rerender w os ns s = Some s
    /\ (forall a, In a (Prog.trace (Standard.on_pubkey_change w os ns)) ->
                  a = ClearInterval).
Proof.
  intros PublicKey Instruction w od nd hd os ns s Hoff Hon Hnone.
  split; [|split; [|split; [|split]]].
  - unfold Direct.rerender, Direct.mounted, Direct.AppContent.
    rewrite Hoff. destruct (Direct.isConnecting nd); reflexivity.
  - unfold Direct.mounted. rewrite Hon. reflexivity.
  - repeat split; reflexivity.
  - unfold Standard.rerender, Standard.mounted, after,
      Standard.on_pubkey_change, Standard.effect, Standard.cleanup.
    rewrite Hnone. destruct (Standard.publicKey os); reflexivity.
  - unfold Standard.on_pubkey_change, Standard.effect, Standard.cleanup.
    rewrite Hnone. destruct (Standard.publicKey os); simpl; intros a Ha;
      [destruct Ha as [Ha|[]]; symmetry; exact Ha | destruct Ha].
Qed.

Lemma disconnect_state_witness :
  Direct.rerender Sample.world_ok Sample.direct_hook Sample.direct_off
                  Sample.form_half = None
  /\ Standard.rerender Sample.world_ok Sample.standard_hook Sample.standard_off
                       Sample.form_half = Some Sample.form_half.
Proof.
  destruct (disconnect_state _ _ Sample.world_ok Sample.direct_hook
              Sample.direct_off Sample.direct_hook Sample.standard_hook
              Sample.standard_off Sample.form_half eq_refl eq_refl eq_refl)
    as (Hd & _ & _ & Hs & _).
  split; [exact Hd | exact Hs].
Defined.

(** C5, as the claim states it, fails: for this message the two
    variants give different texts. *)
Lemma errorMessage_counterexample :
  Direct.errorMessage None (ErrorObj "Transaction too large")
  <> Standard.errorMessage None (ErrorObj "Transaction too large").
Proof. vm_compute. discriminate. Qed.

(** C5, amended. The two [catch] blocks give the same message for a
    thrown value that is not an [Error], and for every [Error] message
    that does not contain both Signing failed and User rejected, unless
    it is a too-large message (one with too large and neither of those
    two): for a too-large message the direct variant's text adds that the
    transaction has been optimized with V0 format. *)
Theorem errorMessage_agreement :
  forall (b : option JS.number),
    Direct.errorMessage b NonError = Standard.errorMessage b NonError
    /\ (forall m : string,
           JS.includes m "Signing failed" && JS.includes m "User rejected" = false ->
           JS.includes m "Signing failed" || JS.includes m "User rejected"
           || negb (JS.includes m "Transaction too large" || JS.includes m "too large")
           = true ->
           Direct.errorMessage b (ErrorObj m) = Standard.errorMessage b (ErrorObj m))
    /\ (forall m : string,
           JS.includes m "Signing failed" = false ->
           JS.includes m "User rejected" = false ->
           JS.includes m "Transaction too large" || JS.includes m "too large" = true ->
           Direct.errorMessage b (ErrorObj m) =
           "Transaction too large. The transaction has been optimized with V0 format. If this persists, please try a smaller amount or contact support."
           /\ Standard.errorMessage b (ErrorObj m) =
              "Transaction too large. If this persists, please try a smaller amount or contact support.").
Proof.
  intros b. split; [reflexivity|]. split.
  - intros m Hboth Hcase. unfold Direct.errorMessage, Standard.errorMessage.
    destruct (JS.includes m "Signing failed"), (JS.includes m "User rejected");
      try discriminate Hboth; try reflexivity.
    simpl in Hcase. apply negb_true_iff in Hcase. rewrite Hcase. reflexivity.
  - intros m Hs Hu Hl. unfold Direct.errorMessage, Standard.errorMessage.
    rewrite Hs, Hu, Hl. split; reflexivity.
Qed.

Lemma errorMessage_agreement_witness :
  Direct.errorMessage None (ErrorObj "User rejected the request")
  = Standard.errorMessage None (ErrorObj "User rejected the request")
  /\ Standard.errorMessage None (ErrorObj "Transaction too large")
     = "Transaction too large. If this persists, please try a smaller amount or contact support.".
Proof.
  destruct (errorMessage_agreement None) as (_ & Hsame & Hlarge).
  split.
  - exact (Hsame "User rejected the request" eq_refl eq_refl).
  - exact (proj2 (Hlarge "Transaction too large" eq_refl eq_refl eq_refl)).
Defined.

(** X16. What is handed over for an accepted transfer, in both
    variants, is the binary64 product [amountNum * LAMPORTS_PER_SOL], as
    it comes out of the multiplication, where [amountNum] is
    [parseFloat(amount)]. *)
Lemma lamports_are_the_float_product :
  forall (PublicKey Instruction : Type) (w : World PublicKey Instruction)
         (hd : Direct.Hook) (hs : Standard.Hook) (s : State)
         (from to : PublicKey) (info : Direct.WalletInfo) (a : JS.number),
    Direct.smartWalletPubkey hd = Some from ->
    Direct.isConnected hd = true ->
    Direct.wallet hd = Some info ->
    Standard.publicKey hs = Some from ->
    Standard.connected hs = true ->
    PublicKey_new w (JS.trim (recipient s)) = Ok to ->
    Prog.outcome (checkAmount (PublicKey := PublicKey) (Instruction := Instruction)
                    (amount s) (balance s)) = Ok a ->
    a = JS.parseFloat (amount s)
    /\ lamports_sent (Prog.trace (Direct.handleSendTransaction w hd s))
       = Some (JS.mul a LAMPORTS_PER_SOL)
    /\ lamports_sent (Prog.trace (Standard.handleSendTransaction w hs s))
       = Some (JS.mul a LAMPORTS_PER_SOL).
Proof.
  intros PublicKey Instruction w hd hs s from to info a
         Hdk Hdc Hdw Hsk Hsc Hnew Hcheck.
  destruct (direct_accepted w hd s from info Hdk Hdc Hdw to a Hnew Hcheck) as [rd Hd].
  destruct (standard_accepted w hs s from Hsk Hsc to a Hnew Hcheck) as [rs Hs].
  rewrite Hd, Hs. split; [|split; reflexivity].
  revert Hcheck. unfold checkAmount.
  destruct (JS.isNaN (JS.parseFloat (amount s))
            || JS.le (JS.parseFloat (amount s)) JS.zero); [discriminate|].
  prog_step. destruct (balance s) as [b|]; prog_step;
    [|intros H; injection H as <-; reflexivity].
  destruct (JS.gt (JS.parseFloat (amount s)) b); prog_step; [discriminate|].
  destruct (JS.gt (JS.parseFloat (amount s)) _); prog_step; [discriminate|].
  intros H; injection H as <-; reflexivity.
Qed.

(** C4. With a balance of 1 SOL, a recipient that parses and the amount
    text 0.0041, both variants accept the transfer and hand
    [8804682956800001 / 2^31], that is 4100000.0000000005, to
    [SystemProgram.transfer] as [lamports]: not an integer, where
    4100000 is the amount in the smallest unit. *)
Theorem lamports_not_an_integer :
  accepted (Prog.trace (Direct.handleSendTransaction
                          Sample.world_ok Sample.direct_hook Sample.form_drift)) = true
  /\ lamports_sent (Prog.trace (Direct.handleSendTransaction
                                  Sample.world_ok Sample.direct_hook Sample.form_drift))
     = Some (S754_finite false 8804682956800001 (-31))
  /\ lamports_sent (Prog.trace (Standard.handleSendTransaction
                                  Sample.world_ok Sample.standard_hook Sample.form_drift))
     = Some (S754_finite false 8804682956800001 (-31))
  /\ JS.isInteger (S754_finite false 8804682956800001 (-31)) = false
  /\ JS.lt (JS.of_Z 4100000) (S754_finite false 8804682956800001 (-31)) = true
  /\ JS.lt (S754_finite false 8804682956800001 (-31)) (JS.of_Z 4100001) = true.
Proof. repeat split; vm_compute; reflexivity. Qed.

(** Never both outcomes: after any run of either handler, a shown
    transaction identifier and a shown error message exclude each
    other. *)
Lemma never_both_outcomes :
  forall (PublicKey Instruction : Type) (w : World PublicKey Instruction)
         (hd : Direct.Hook) (hs : Standard.Hook) (s : State),
    hash_shown (after (Direct.handleSendTransaction w hd s) s)
    && error_shown (after (Direct.handleSendTransaction w hd s) s) = false
    /\ hash_shown (after (Standard.handleSendTransaction w hs s) s)
       && error_shown (after (Standard.handleSendTransaction w hs s) s) = false.
Proof.
  intros PublicKey Instruction w hd hs s. split.
  - destruct (direct_handle_cases w hd s)
      as [(e & pre & _ & Hq & H)|(sig & pre & _ & Hq & H)];
      unfold after; rewrite H; cbn [Prog.trace fst].
    + rewrite (state_after_failure pre s _ _ _ Hq). reflexivity.
    + rewrite (state_after_success pre _ s sig Hq), run_app, run_cons, run_nil.
      unfold error_shown. cbn [update txError].
      destruct (direct_refresh_keeps_form w hd
                  {| balance := balance s; copied := copied s;
                     showSendModal := showSendModal s; recipient := "";
                     amount := ""; txHash := Some sig; txError := "";
                     sending := true |}) as (_ & _ & _ & He & _).
      unfold after in He. rewrite He. apply andb_false_r.
  - destruct (standard_handle_cases w hs s)
      as [(e & pre & _ & Hq & H)|(sig & pre & _ & Hq & H)];
      unfold after; rewrite H; cbn [Prog.trace fst].
    + rewrite (state_after_failure pre s _ _ _ Hq). reflexivity.
    + rewrite (state_after_success pre _ s sig Hq), run_app, run_cons, run_nil.
      unfold error_shown. cbn [update txError].
      destruct (standard_refresh_keeps_form w hs
                  {| balance := balance s; copied := copied s;
                     showSendModal := showSendModal s; recipient := "";
                     amount := ""; txHash := Some sig; txError := "";
                     sending := true |}) as (_ & _ & _ & He & _).
      unfold after in He. rewrite He. apply andb_false_r.
Qed.

(** C7. When the provider rejects with an [Error] whose message is the
    empty string, the attempt fails and the handler of either variant
    returns with neither outcome filled in: [txHash] is null and
    [txError] is the empty string, so the modal shows neither the
    success panel nor an error. *)
Theorem silent_failure :
  failed (Direct.attempt Sample.world_silent_error Sample.direct_hook Sample.form_half)
  /\ failed (Standard.attempt Sample.world_silent_error Sample.standard_hook
               Sample.form_half)
  /\ Prog.outcome (Direct.handleSendTransaction
                     Sample.world_silent_error Sample.direct_hook Sample.form_half)
     = Ok tt
  /\ txHash (after (Direct.handleSendTransaction
                      Sample.world_silent_error Sample.direct_hook Sample.form_half)
                   Sample.form_half) = None
  /\ txError (after (Direct.handleSendTransaction
                       Sample.world_silent_error Sample.direct_hook Sample.form_half)
                    Sample.form_half) = ""
  /\ txHash (after (Standard.handleSendTransaction
                      Sample.world_silent_error Sample.standard_hook Sample.form_half)
                   Sample.form_half) = None
  /\ txError (after (Standard.handleSendTransaction
                       Sample.world_silent_error Sample.standard_hook Sample.form_half)
                    Sample.form_half) = "".
Proof.
  split; [exists (ErrorObj ""); reflexivity|].
  split; [exists (ErrorObj ""); reflexivity|].
  repeat split; vm_compute; reflexivity.
Qed.

(** * Further properties of the dashboards *)

(** ** The balance tracker *)

(** X1. When the balance query answers [n] lamports, [refreshBalance] of
    either variant stores [n / LAMPORTS_PER_SOL] as the balance and
    touches no other cell; run twice against the same answer it leaves
    the state of the first run. *)
Theorem refreshBalance_stores_quotient :
  forall (PublicKey Instruction : Type) (w : World PublicKey Instruction)
         (hd : Direct.Hook) (hs : Standard.Hook) (s : State)
         (pk : PublicKey) (n : JS.number),
    Direct.smartWalletPubkey hd = Some pk ->
    Standard.publicKey hs = Some pk ->
    getBalance w pk = Ok n ->
    let stored :=
      {| balance := Some (JS.div n LAMPORTS_PER_SOL); copied := copied s;
         showSendModal := showSendModal s; recipient := recipient s;
         amount := amount s; txHash := txHash s; txError := txError s;
         sending := sending s |} in
    after (Direct.refreshBalance w hd) s = stored
    /\ after (Standard.refreshBalance w hs) s = stored
    /\ after (Direct.refreshBalance w hd) (after (Direct.refreshBalance w hd) s)
       = after (Direct.refreshBalance w hd) s
    /\ after (Standard.refreshBalance w hs) (after (Standard.refreshBalance w hs) s)
       = after (Standard.refreshBalance w hs) s.
Proof.
  intros PublicKey Instruction w hd hs s pk n Hd Hs Hq stored.
  unfold after, Direct.refreshBalance, Standard.refreshBalance.
  rewrite Hd, Hs. prog_step. rewrite Hq. prog_step.
  repeat split; reflexivity.
Qed.

Lemma refreshBalance_stores_quotient_witness :
  balance (after (Direct.refreshBalance Sample.world_ok Sample.direct_hook)
                 Sample.idle)
  = Some (JS.div (JS.of_Z 499000000) LAMPORTS_PER_SOL)
  /\ recipient (after (Standard.refreshBalance Sample.world_ok Sample.standard_hook)
                      Sample.form_half) = Sample.you.
Proof.
  split.
  - destruct (refreshBalance_stores_quotient _ _ Sample.world_ok Sample.direct_hook
                Sample.standard_hook Sample.idle Sample.me (JS.of_Z 499000000)
                eq_refl eq_refl eq_refl) as (Hd & _).
    rewrite Hd. reflexivity.
  - destruct (refreshBalance_stores_quotient _ _ Sample.world_ok Sample.direct_hook
                Sample.standard_hook Sample.form_half Sample.me (JS.of_Z 499000000)
                eq_refl eq_refl eq_refl) as (_ & Hs & _).
    rewrite Hs. reflexivity.
Defined.

(** ** The guards and the rules of the handler *)

(** X2. A handler run without a usable wallet makes no call at all, not
    even to the [PublicKey] constructor, and reports the guard's
    message: Wallet not connected when the account identifier is null
    (either variant) or the wallet-standard hook says not connected;
    Please reconnect your wallet when the direct hook has an identifier
    but is not connected or has no wallet. *)
Theorem no_wallet_no_calls :
  forall (PublicKey Instruction : Type) (w : World PublicKey Instruction)
         (hd : Direct.Hook) (hs : Standard.Hook) (s : State),
    (Direct.smartWalletPubkey hd = None ->
     calls (Prog.trace (Direct.handleSendTransaction w hd s)) = []
     /\ txError (after (Direct.handleSendTransaction w hd s) s)
        = "Wallet not connected")
    /\ (Direct.smartWalletPubkey hd <> None ->
        Direct.isConnected hd = false \/ Direct.wallet hd = None ->
        calls (Prog.trace (Direct.handleSendTransaction w hd s)) = []
        /\ txError (after (Direct.handleSendTransaction w hd s) s)
           = "Please reconnect your wallet")
    /\ (Standard.publicKey hs = None \/ Standard.connected hs = false ->
        calls (Prog.trace (Standard.handleSendTransaction w hs s)) = []
        /\ txError (after (Standard.handleSendTransaction w hs s) s)
           = "Wallet not connected").
Proof.
  intros PublicKey Instruction w hd hs s.
  split; [|split].
  - intros Hk. unfold after, Direct.handleSendTransaction, Direct.attempt.
    rewrite Hk. split; vm_compute; reflexivity.
  - intros Hk Hoff. unfold after, Direct.handleSendTransaction, Direct.attempt.
    destruct (Direct.smartWalletPubkey hd) as [pk|]; [|contradiction Hk; reflexivity].
    assert (Hguard : negb (Direct.isConnected hd)
                     || match Direct.wallet hd with Some _ => false | None => true end
                     = true).
    { destruct Hoff as [H|H]; rewrite H; [reflexivity|apply orb_true_r]. }
    prog_step. rewrite Hguard. split; vm_compute; reflexivity.
  - intros Hoff. unfold after, Standard.handleSendTransaction, Standard.attempt.
    destruct Hoff as [H|H]; rewrite H.
    + split; vm_compute; reflexivity.
    + destruct (Standard.publicKey hs); split; vm_compute; reflexivity.
Qed.

Lemma no_wallet_no_calls_witness :
  calls (Prog.trace (Direct.handleSendTransaction
                       Sample.world_ok Sample.direct_off Sample.form_half)) = []
  /\ txError (after (Standard.handleSendTransaction
                       Sample.world_ok Sample.standard_off Sample.form_half)
                    Sample.form_half) = "Wallet not connected".
Proof.
  destruct (no_wallet_no_calls _ _ Sample.world_ok Sample.direct_off
              Sample.standard_off Sample.form_half) as (Hd & _ & Hs).
  split.
  - exact (proj1 (Hd eq_refl)).
  - exact (proj2 (Hs (or_introl eq_refl))).
Defined.

Section AmountRules.
Context {PublicKey Instruction : Type}.

(** With the balance unknown only the first rule is left. *)
Lemma checkAmount_unknown (amt : string) :
  checkAmount (PublicKey := PublicKey) (Instruction := Instruction) amt None
  = if JS.isNaN (JS.parseFloat amt) || JS.le (JS.parseFloat amt) JS.zero
    then ([], Throw (ErrorObj "Invalid amount"))
    else ([], Ok (JS.parseFloat amt)).
Proof.
  unfold checkAmount.
  destruct (JS.isNaN (JS.parseFloat amt) || JS.le (JS.parseFloat amt) JS.zero);
    reflexivity.
Qed.

(** An amount over the balance stops at the third rule. *)
Lemma checkAmount_over_balance (amt : string) (b : JS.number) :
  JS.isNaN (JS.parseFloat amt) || JS.le (JS.parseFloat amt) JS.zero = false ->
  JS.gt (JS.parseFloat amt) b = true ->
  checkAmount (PublicKey := PublicKey) (Instruction := Instruction) amt (Some b)
  = ([], Throw (ErrorObj "Insufficient balance")).
Proof.
  intros Hvalid Hover. unfold checkAmount. rewrite Hvalid. prog_step.
  rewrite Hover. reflexivity.
Qed.

End AmountRules.

(** X3. While the balance is unknown the two balance rules are skipped:
    with the wallet connected and a recipient that parses, either
    handler goes on to build the transfer exactly when the amount parses
    to a number above zero, with the product of that number and
    [LAMPORTS_PER_SOL] as [lamports]. *)
Theorem unknown_balance_skips_rules :
  forall (PublicKey Instruction : Type) (w : World PublicKey Instruction)
         (hd : Direct.Hook) (hs : Standard.Hook) (s : State)
         (from to : PublicKey) (info : Direct.WalletInfo),
    Direct.smartWalletPubkey hd = Some from ->
    Direct.isConnected hd = true ->
    Direct.wallet hd = Some info ->
    Standard.publicKey hs = Some from ->
    Standard.connected hs = true ->
    PublicKey_new w (JS.trim (recipient s)) = Ok to ->
    balance s = None ->
    let a := JS.parseFloat (amount s) in
    let valid := negb (JS.isNaN a || JS.le a JS.zero) in
    accepted (Prog.trace (Direct.handleSendTransaction w hd s)) = valid
    /\ accepted (Prog.trace (Standard.handleSendTransaction w hs s)) = valid
    /\ (valid = true ->
        lamports_sent (Prog.trace (Direct.handleSendTransaction w hd s))
        = Some (JS.mul a LAMPORTS_PER_SOL)
        /\ lamports_sent (Prog.trace (Standard.handleSendTransaction w hs s))
           = Some (JS.mul a LAMPORTS_PER_SOL)).
Proof.
  intros PublicKey Instruction w hd hs s from to info
         Hdk Hdc Hdw Hsk Hsc Hnew Hbal a valid.
  pose proof (checkAmount_unknown (PublicKey := PublicKey)
                (Instruction := Instruction) (amount s)) as Hcheck.
  rewrite <- Hbal in Hcheck. fold a in Hcheck. unfold valid.
  destruct (JS.isNaN a || JS.le a JS.zero).
  - assert (Hout : Prog.outcome
                     (checkAmount (PublicKey := PublicKey)
                        (Instruction := Instruction) (amount s) (balance s))
                   = Throw (ErrorObj "Invalid amount")) by (rewrite Hcheck; reflexivity).
    rewrite (direct_rejected w hd s from info Hdk Hdc Hdw to _ Hnew Hout).
    rewrite (standard_rejected w hs s from Hsk Hsc to _ Hnew Hout).
    split; [reflexivity|]. split; [reflexivity|]. discriminate.
  - assert (Hout : Prog.outcome
                     (checkAmount (PublicKey := PublicKey)
                        (Instruction := Instruction) (amount s) (balance s))
                   = Ok a) by (rewrite Hcheck; reflexivity).
    destruct (direct_accepted w hd s from info Hdk Hdc Hdw to a Hnew Hout) as [rd Hd].
    destruct (standard_accepted w hs s from Hsk Hsc to a Hnew Hout) as [rs Hs].
    rewrite Hd, Hs. repeat split; reflexivity.
Qed.

Lemma unknown_balance_skips_rules_witness :
  accepted (Prog.trace (Direct.handleSendTransaction
                          Sample.world_ok Sample.direct_hook
                          (Sample.form None Sample.you "1000000"))) = true
  /\ accepted (Prog.trace (Standard.handleSendTransaction
                             Sample.world_ok Sample.standard_hook
                             (Sample.form None Sample.you "-1"))) = false.
Proof.
  split.
  - destruct (unknown_balance_skips_rules _ _ Sample.world_ok Sample.direct_hook
                Sample.standard_hook (Sample.form None Sample.you "1000000")
                Sample.me Sample.you {| Direct.smartWallet := Sample.me |}
                eq_refl eq_refl eq_refl eq_refl eq_refl eq_refl eq_refl)
      as (Hd & _).
    rewrite Hd. reflexivity.
  - destruct (unknown_balance_skips_rules _ _ Sample.world_ok Sample.direct_hook
                Sample.standard_hook (Sample.form None Sample.you "-1")
                Sample.me Sample.you {| Direct.smartWallet := Sample.me |}
                eq_refl eq_refl eq_refl eq_refl eq_refl eq_refl eq_refl)
      as (_ & Hs & _).
    rewrite Hs. reflexivity.
Defined.

(** X4. An amount above the known balance is reported as Insufficient
    balance by either handler, before the reserve rule is looked at and
    whatever the balance is, and no transfer is built. *)
Theorem over_balance_reported_first :
  forall (PublicKey Instruction : Type) (w : World PublicKey Instruction)
         (hd : Direct.Hook) (hs : Standard.Hook) (s : State)
         (from to : PublicKey) (info : Direct.WalletInfo) (b : JS.number),
    Direct.smartWalletPubkey hd = Some from ->
    Direct.isConnected hd = true ->
    Direct.wallet hd = Some info ->
    Standard.publicKey hs = Some from ->
    Standard.connected hs = true ->
    PublicKey_new w (JS.trim (recipient s)) = Ok to ->
    balance s = Some b ->
    JS.isNaN (JS.parseFloat (amount s))
    || JS.le (JS.parseFloat (amount s)) JS.zero = false ->
    JS.gt (JS.parseFloat (amount s)) b = true ->
    txError (after (Direct.handleSendTransaction w hd s) s) = "Insufficient balance"
    /\ txError (after (Standard.handleSendTransaction w hs s) s)
       = "Insufficient balance"
    /\ calls (Prog.trace (Direct.handleSendTransaction w hd s))
       = [NewPublicKey (JS.trim (recipient s))]
    /\ calls (Prog.trace (Standard.handleSendTransaction w hs s))
       = [NewPublicKey (JS.trim (recipient s))].
Proof.
  intros PublicKey Instruction w hd hs s from to info b
         Hdk Hdc Hdw Hsk Hsc Hnew Hbal Hvalid Hover.
  assert (Hout : Prog.outcome
                   (checkAmount (PublicKey := PublicKey)
                      (Instruction := Instruction) (amount s) (balance s))
                 = Throw (ErrorObj "Insufficient balance")).
  { rewrite Hbal, (checkAmount_over_balance _ b Hvalid Hover). reflexivity. }
  rewrite (direct_rejected w hd s from info Hdk Hdc Hdw to _ Hnew Hout).
  rewrite (standard_rejected w hs s from Hsk Hsc to _ Hnew Hout).
  unfold after. cbn [Prog.trace fst run fold_left update txError].
  repeat split; vm_compute; reflexivity.
Qed.

Lemma over_balance_reported_first_witness :
  txError (after (Direct.handleSendTransaction
                    Sample.world_ok Sample.direct_hook
                    (Sample.form (Some Sample.one_sol) Sample.you "1.5"))
                 (Sample.form (Some Sample.one_sol) Sample.you "1.5"))
  = "Insufficient balance".
Proof.
  exact (proj1 (over_balance_reported_first _ _ Sample.world_ok Sample.direct_hook
                  Sample.standard_hook
                  (Sample.form (Some Sample.one_sol) Sample.you "1.5")
                  Sample.me Sample.you {| Direct.smartWallet := Sample.me |}
                  Sample.one_sol
                  eq_refl eq_refl eq_refl eq_refl eq_refl eq_refl eq_refl
                  eq_refl eq_refl)).
Defined.

(** ** What a run leaves behind *)

(** Take the next external call of the goal apart, by its outcome. *)
Ltac next_call :=
  prog_step;
  match goal with
  | |- context [PublicKey_new ?w ?t] => destruct (PublicKey_new w t) eqn:?
  | |- context [@checkAmount ?P ?I ?a ?b] =>
      let Htr := fresh "Htr" in
      let tr := fresh "tr" in
      let r := fresh "r" in
      pose proof (@checkAmount_trace P I a b) as Htr;
      destruct (@checkAmount P I a b) as [tr r];
      cbn [Prog.trace Prog.outcome fst snd] in Htr; subst tr; destruct r
  | |- context [SystemProgram_transfer ?w ?p] =>
      destruct (SystemProgram_transfer w p) eqn:?
  | |- context [signAndSend ?w ?l] => destruct (signAndSend w l) eqn:?
  | |- context [getBalance ?w ?pk] => destruct (getBalance w pk) eqn:?
  end.

Section AfterARun.
Context {PublicKey Instruction : Type}.
Implicit Types (tr : list (action PublicKey Instruction)) (s : State).

Lemma touches_balance_app tr1 tr2 :
  existsb touches_balance (tr1 ++ tr2)%list
  = existsb touches_balance tr1 || existsb touches_balance tr2.
Proof. apply existsb_app. Qed.

(** The handlers read three cells of the state of their render. *)
Lemma direct_handle_reads (w : World PublicKey Instruction) (h : Direct.Hook) s s' :
  recipient s = recipient s' -> amount s = amount s' -> balance s = balance s' ->
  Direct.handleSendTransaction w h s = Direct.handleSendTransaction w h s'.
Proof.
  intros Hr Ha Hb. unfold Direct.handleSendTransaction, Direct.attempt.
  rewrite Hr, Ha, Hb. reflexivity.
Qed.

Lemma standard_handle_reads (w : World PublicKey Instruction) (h : Standard.Hook) s s' :
  recipient s = recipient s' -> amount s = amount s' -> balance s = balance s' ->
  Standard.handleSendTransaction w h s = Standard.handleSendTransaction w h s'.
Proof.
  intros Hr Ha Hb. unfold Standard.handleSendTransaction, Standard.attempt.
  rewrite Hr, Ha, Hb. reflexivity.
Qed.

End AfterARun.

Section FailedRuns.
Context {PublicKey Instruction : Type}.
Variable w : World PublicKey Instruction.
Variable s : State.

Lemma direct_failure_leaves (h : Direct.Hook) :
  failed (Direct.attempt w h s) ->
  exists e,
    Prog.outcome (Direct.attempt w h s) = Throw e
    /\ after (Direct.handleSendTransaction w h s) s
       = {| balance := balance s; copied := copied s;
            showSendModal := showSendModal s; recipient := recipient s;
            amount := amount s; txHash := None;
            txError := Direct.errorMessage (balance s) e; sending := false |}
    /\ existsb touches_balance
         (Prog.trace (Direct.handleSendTransaction w h s)) = false.
Proof.
  intros [e' He'].
  destruct (direct_handle_cases w h s)
    as [(e & pre & Hout & Hq & H)|(sig & pre & Hout & Hq & H)];
    [|rewrite Hout in He'; discriminate He'].
  exists e. split; [exact Hout|]. unfold after. rewrite H. cbn [Prog.trace fst].
  split; [apply state_after_failure; exact Hq|].
  rewrite touches_balance_app.
  change (existsb touches_balance
            (SetTxError "" :: SetTxHash None :: SetSending true :: pre))
    with (existsb touches_balance pre).
  rewrite (quiet_no_balance pre Hq). reflexivity.
Qed.

Lemma standard_failure_leaves (h : Standard.Hook) :
  failed (Standard.attempt w h s) ->
  exists e,
    Prog.outcome (Standard.attempt w h s) = Throw e
    /\ after (Standard.handleSendTransaction w h s) s
       = {| balance := balance s; copied := copied s;
            showSendModal := showSendModal s; recipient := recipient s;
            amount := amount s; txHash := None;
            txError := Standard.errorMessage (balance s) e; sending := false |}
    /\ existsb touches_balance
         (Prog.trace (Standard.handleSendTransaction w h s)) = false.
Proof.
  intros [e' He'].
  destruct (standard_handle_cases w h s)
    as [(e & pre & Hout & Hq & H)|(sig & pre & Hout & Hq & H)];
    [|rewrite Hout in He'; discriminate He'].
  exists e. split; [exact Hout|]. unfold after. rewrite H. cbn [Prog.trace fst].
  split; [apply state_after_failure; exact Hq|].
  rewrite touches_balance_app.
  change (existsb touches_balance
            (SetTxError "" :: SetTxHash None :: SetSending true :: pre))
    with (existsb touches_balance pre).
  rewrite (quiet_no_balance pre Hq). reflexivity.
Qed.

End FailedRuns.

(** X5. After a failed attempt the state is the one of the render with
    [txHash] null, [txError] the message of the [catch] block for the
    exception, and [sending] false: the balance, the modal and the form
    are as before, and the run neither queried nor stored the
    balance. *)
Theorem failed_attempt_state :
  forall (PublicKey Instruction : Type) (w : World PublicKey Instruction)
         (hd : Direct.Hook) (hs : Standard.Hook) (s : State),
    (failed (Direct.attempt w hd s) ->
     exists e,
       Prog.outcome (Direct.attempt w hd s) = Throw e
       /\ after (Direct.handleSendTransaction w hd s) s
          = {| balance := balance s; copied := copied s;
               showSendModal := showSendModal s; recipient := recipient s;
               amount := amount s; txHash := None;
               txError := Direct.errorMessage (balance s) e; sending := false |}
       /\ existsb touches_balance
            (Prog.trace (Direct.handleSendTransaction w hd s)) = false)
    /\ (failed (Standard.attempt w hs s) ->
        exists e,
          Prog.outcome (Standard.attempt w hs s) = Throw e
          /\ after (Standard.handleSendTransaction w hs s) s
             = {| balance := balance s; copied := copied s;
                  showSendModal := showSendModal s; recipient := recipient s;
                  amount := amount s; txHash := None;
                  txError := Standard.errorMessage (balance s) e; sending := false |}
          /\ existsb touches_balance
               (Prog.trace (Standard.handleSendTransaction w hs s)) = false).
Proof.
  intros PublicKey Instruction w hd hs s. split.
  - apply direct_failure_leaves.
  - apply standard_failure_leaves.
Qed.

Lemma failed_attempt_state_witness :
  exists e,
    Prog.outcome (Direct.attempt Sample.world_silent_error Sample.direct_hook
                    Sample.form_half) = Throw e
    /\ after (Direct.handleSendTransaction Sample.world_silent_error
                Sample.direct_hook Sample.form_half) Sample.form_half
       = {| balance := balance Sample.form_half; copied := copied Sample.form_half;
            showSendModal := showSendModal Sample.form_half;
            recipient := recipient Sample.form_half;
            amount := amount Sample.form_half; txHash := None;
            txError := Direct.errorMessage (balance Sample.form_half) e;
            sending := false |}
    /\ existsb touches_balance
         (Prog.trace (Direct.handleSendTransaction Sample.world_silent_error
                        Sample.direct_hook Sample.form_half)) = false.
Proof.
  exact (proj1 (failed_attempt_state _ _ Sample.world_silent_error
                  Sample.direct_hook Sample.standard_hook Sample.form_half)
               (ex_intro _ (ErrorObj "") eq_refl)).
Defined.

(** X6. A failed attempt can be submitted again as it is: run on the
    state the failure left, in the same world and with the same hook,
    the handler is the same program as the first run, so it makes the
    same calls and reports the same outcome. *)
Theorem resubmit_after_failure :
  forall (PublicKey Instruction : Type) (w : World PublicKey Instruction)
         (hd : Direct.Hook) (hs : Standard.Hook) (s : State),
    (failed (Direct.attempt w hd s) ->
     Direct.handleSendTransaction w hd
       (after (Direct.handleSendTransaction w hd s) s)
     = Direct.handleSendTransaction w hd s)
    /\ (failed (Standard.attempt w hs s) ->
        Standard.handleSendTransaction w hs
          (after (Standard.handleSendTransaction w hs s) s)
        = Standard.handleSendTransaction w hs s).
Proof.
  intros PublicKey Instruction w hd hs s.
  split; intros Hfail.
  - destruct (direct_failure_leaves w s hd Hfail) as (e & _ & Hstate & _).
    apply direct_handle_reads; rewrite Hstate; reflexivity.
  - destruct (standard_failure_leaves w s hs Hfail) as (e & _ & Hstate & _).
    apply standard_handle_reads; rewrite Hstate; reflexivity.
Qed.

Lemma resubmit_after_failure_witness :
  Direct.handleSendTransaction Sample.world_ok Sample.direct_hook
    (after (Direct.handleSendTransaction Sample.world_ok Sample.direct_hook
              Sample.form_reserve) Sample.form_reserve)
  = Direct.handleSendTransaction Sample.world_ok Sample.direct_hook
      Sample.form_reserve.
Proof.
  refine (proj1 (resubmit_after_failure _ _ Sample.world_ok Sample.direct_hook
                   Sample.standard_hook Sample.form_reserve) _).
  eexists. vm_compute. reflexivity.
Defined.

Section SuccessfulRuns.
Context {PublicKey Instruction : Type}.
Variable w : World PublicKey Instruction.
Variable s : State.

Lemma direct_success_leaves (h : Direct.Hook) :
  succeeded (Direct.attempt w h s) ->
  exists i sig,
    signAndSend w [i] = Ok sig
    /\ after (Direct.handleSendTransaction w h s) s
       = after (Direct.refreshBalance w h) (recorded s sig).
Proof.
  intros [u Hu]. revert Hu.
  unfold after, Direct.handleSendTransaction, Direct.attempt.
  destruct (Direct.smartWalletPubkey h) as [from|] eqn:Hk; [|discriminate].
  prog_step.
  destruct (negb (Direct.isConnected h)
            || match Direct.wallet h with Some _ => false | None => true end);
    [discriminate|].
  destruct (PublicKey_new w (JS.trim (recipient s))) as [to|e]; [|discriminate].
  prog_step. split_checkAmount. destruct r as [a|e]; [|discriminate].
  prog_step.
  destruct (SystemProgram_transfer w _) as [i|e]; [|discriminate].
  prog_step.
  destruct (signAndSend w [i]) as [sig|e] eqn:Hsent; [|discriminate].
  prog_step. intros _. exists i, sig. split; [exact Hsent|].
  destruct (direct_refresh_cases w h)
    as [H|[(pk & e & _ & _ & H)|(pk & n & _ & _ & H)]]; rewrite H; reflexivity.
Qed.

Lemma standard_success_leaves (h : Standard.Hook) :
  succeeded (Standard.attempt w h s) ->
  exists i sig,
    signAndSend w [i] = Ok sig
    /\ after (Standard.handleSendTransaction w h s) s
       = after (Standard.refreshBalance w h) (recorded s sig).
Proof.
  intros [u Hu]. revert Hu.
  unfold after, Standard.handleSendTransaction, Standard.attempt.
  destruct (Standard.publicKey h) as [from|] eqn:Hk; [|discriminate].
  destruct (negb (Standard.connected h)); [discriminate|].
  destruct (PublicKey_new w (JS.trim (recipient s))) as [to|e]; [|discriminate].
  prog_step. split_checkAmount. destruct r as [a|e]; [|discriminate].
  prog_step.
  destruct (SystemProgram_transfer w _) as [i|e]; [|discriminate].
  prog_step.
  destruct (signAndSend w [i]) as [sig|e] eqn:Hsent; [|discriminate].
  prog_step. intros _. exists i, sig. split; [exact Hsent|].
  destruct (standard_refresh_cases w h)
    as [H|[(pk & e & _ & _ & H)|(pk & n & _ & _ & H)]]; rewrite H; reflexivity.
Qed.

End SuccessfulRuns.

Section RefreshKeeps.
Context {PublicKey Instruction : Type}.
Variable w : World PublicKey Instruction.

(** A refresh changes the balance cell only, and what it stores does
    not depend on the other cells. *)
Lemma direct_refresh_only_balance (h : Direct.Hook) (s : State) :
  after (Direct.refreshBalance w h) s
  = {| balance := balance (after (Direct.refreshBalance w h) s);
       copied := copied s; showSendModal := showSendModal s;
       recipient := recipient s; amount := amount s; txHash := txHash s;
       txError := txError s; sending := sending s |}.
Proof.
  unfold after.
  destruct (direct_refresh_cases w h)
    as [H|[(pk & e & _ & _ & H)|(pk & n & _ & _ & H)]]; rewrite H;
    cbn [Prog.trace fst run fold_left update balance];
    try reflexivity; symmetry; apply State_eta.
Qed.

Lemma direct_refresh_balance_ext (h : Direct.Hook) (s s' : State) :
  balance s = balance s' ->
  balance (after (Direct.refreshBalance w h) s)
  = balance (after (Direct.refreshBalance w h) s').
Proof.
  intros Hb. unfold after.
  destruct (direct_refresh_cases w h)
    as [H|[(pk & e & _ & _ & H)|(pk & n & _ & _ & H)]]; rewrite H;
    cbn [Prog.trace fst run fold_left update balance]; auto.
Qed.

Lemma standard_refresh_only_balance (h : Standard.Hook) (s : State) :
  after (Standard.refreshBalance w h) s
  = {| balance := balance (after (Standard.refreshBalance w h) s);
       copied := copied s; showSendModal := showSendModal s;
       recipient := recipient s; amount := amount s; txHash := txHash s;
       txError := txError s; sending := sending s |}.
Proof.
  unfold after.
  destruct (standard_refresh_cases w h)
    as [H|[(pk & e & _ & _ & H)|(pk & n & _ & _ & H)]]; rewrite H;
    cbn [Prog.trace fst run fold_left update balance];
    try reflexivity; symmetry; apply State_eta.
Qed.

Lemma standard_refresh_balance_ext (h : Standard.Hook) (s s' : State) :
  balance s = balance s' ->
  balance (after (Standard.refreshBalance w h) s)
  = balance (after (Standard.refreshBalance w h) s').
Proof.
  intros Hb. unfold after.
  destruct (standard_refresh_cases w h)
    as [H|[(pk & e & _ & _ & H)|(pk & n & _ & _ & H)]]; rewrite H;
    cbn [Prog.trace fst run fold_left update balance]; auto.
Qed.

End RefreshKeeps.

(** X7. After a successful attempt the state holds the identifier the
    provider returned as [txHash], no error, an empty form and [sending]
    false, and its balance is the one a refresh gives: it is the state
    [refreshBalance] leaves when run on the recorded success. A refresh
    that fails at that point leaves the success in place. *)
Theorem successful_attempt_state :
  forall (PublicKey Instruction : Type) (w : World PublicKey Instruction)
         (hd : Direct.Hook) (hs : Standard.Hook) (s : State),
    (succeeded (Direct.attempt w hd s) ->
     exists i sig,
       signAndSend w [i] = Ok sig
       /\ after (Direct.handleSendTransaction w hd s) s
          = {| balance := balance (after (Direct.refreshBalance w hd) s);
               copied := copied s; showSendModal := showSendModal s;
               recipient := ""; amount := ""; txHash := Some sig;
               txError := ""; sending := false |})
    /\ (succeeded (Standard.attempt w hs s) ->
        exists i sig,
          signAndSend w [i] = Ok sig
          /\ after (Standard.handleSendTransaction w hs s) s
             = {| balance := balance (after (Standard.refreshBalance w hs) s);
                  copied := copied s; showSendModal := showSendModal s;
                  recipient := ""; amount := ""; txHash := Some sig;
                  txError := ""; sending := false |}).
Proof.
  intros PublicKey Instruction w hd hs s. split; intros Hok.
  - destruct (direct_success_leaves w s hd Hok) as (i & sig & Hsent & Hstate).
    exists i, sig. split; [exact Hsent|].
    rewrite Hstate, direct_refresh_only_balance.
    rewrite (direct_refresh_balance_ext w hd (recorded s sig) s eq_refl).
    reflexivity.
  - destruct (standard_success_leaves w s hs Hok) as (i & sig & Hsent & Hstate).
    exists i, sig. split; [exact Hsent|].
    rewrite Hstate, standard_refresh_only_balance.
    rewrite (standard_refresh_balance_ext w hs (recorded s sig) s eq_refl).
    reflexivity.
Qed.

Lemma successful_attempt_state_witness :
  exists i sig,
    signAndSend Sample.world_rpc_down [i] = Ok sig
    /\ after (Direct.handleSendTransaction Sample.world_rpc_down Sample.direct_hook
                Sample.form_half) Sample.form_half
       = {| balance := balance (after (Direct.refreshBalance Sample.world_rpc_down
                                         Sample.direct_hook) Sample.form_half);
            copied := copied Sample.form_half;
            showSendModal := showSendModal Sample.form_half;
            recipient := ""; amount := ""; txHash := Some sig;
            txError := ""; sending := false |}.
Proof.
  exact (proj1 (successful_attempt_state _ _ Sample.world_rpc_down
                  Sample.direct_hook Sample.standard_hook Sample.form_half)
               (ex_intro _ tt eq_refl)).
Defined.

(** X14. Leaving the modal puts the send form back to its initial
    contents and keeps the balance: after a failed attempt and Cancel,
    and after a successful attempt and Close, the modal is closed, both
    outcome cells and both form fields are empty and [sending] is false;
    the balance is the one of the render after a failure, and the
    refreshed one after a success. *)
Theorem leaving_the_modal_resets_the_form :
  forall (PublicKey Instruction : Type) (w : World PublicKey Instruction)
         (hd : Direct.Hook) (hs : Standard.Hook) (s : State),
    let cancel := onCancel (PublicKey := PublicKey) (Instruction := Instruction) in
    let close := onClose (PublicKey := PublicKey) (Instruction := Instruction) in
    let emptied (b : option JS.number) :=
      {| balance := b; copied := copied s; showSendModal := false;
         recipient := ""; amount := ""; txHash := None; txError := "";
         sending := false |} in
    (failed (Direct.attempt w hd s) ->
     after cancel (after (Direct.handleSendTransaction w hd s) s)
     = emptied (balance s))
    /\ (failed (Standard.attempt w hs s) ->
        after cancel (after (Standard.handleSendTransaction w hs s) s)
        = emptied (balance s))
    /\ (succeeded (Direct.attempt w hd s) ->
        after close (after (Direct.handleSendTransaction w hd s) s)
        = emptied (balance (after (Direct.refreshBalance w hd) s)))
    /\ (succeeded (Standard.attempt w hs s) ->
        after close (after (Standard.handleSendTransaction w hs s) s)
        = emptied (balance (after (Standard.refreshBalance w hs) s))).
Proof.
  intros PublicKey Instruction w hd hs s cancel close emptied.
  repeat match goal with |- _ /\ _ => split end; intros Hrun.
  - destruct (direct_failure_leaves w s hd Hrun) as (e & _ & Hstate & _).
    rewrite Hstate. reflexivity.
  - destruct (standard_failure_leaves w s hs Hrun) as (e & _ & Hstate & _).
    rewrite Hstate. reflexivity.
  - destruct (direct_success_leaves w s hd Hrun) as (i & sig & _ & Hstate).
    rewrite Hstate, direct_refresh_only_balance.
    rewrite (direct_refresh_balance_ext w hd (recorded s sig) s eq_refl).
    reflexivity.
  - destruct (standard_success_leaves w s hs Hrun) as (i & sig & _ & Hstate).
    rewrite Hstate, standard_refresh_only_balance.
    rewrite (standard_refresh_balance_ext w hs (recorded s sig) s eq_refl).
    reflexivity.
Qed.

Lemma leaving_the_modal_resets_the_form_witness :
  after (onCancel (PublicKey := Sample.Key)
                  (Instruction := TransferParams Sample.Key))
        (after (Direct.handleSendTransaction Sample.world_ok Sample.direct_hook
                  Sample.form_reserve) Sample.form_reserve)
  = {| balance := Some Sample.one_sol; copied := false; showSendModal := false;
       recipient := ""; amount := ""; txHash := None; txError := "";
       sending := false |}
  /\ balance (after (onClose (PublicKey := Sample.Key)
                             (Instruction := TransferParams Sample.Key))
                    (after (Standard.handleSendTransaction Sample.world_ok
                              Sample.standard_hook Sample.form_half)
                           Sample.form_half))
     = Some (JS.div (JS.of_Z 499000000) LAMPORTS_PER_SOL).
Proof.
  destruct (leaving_the_modal_resets_the_form _ _ Sample.world_ok
              Sample.direct_hook Sample.standard_hook Sample.form_reserve)
    as (Hcancel & _).
  destruct (leaving_the_modal_resets_the_form _ _ Sample.world_ok
              Sample.direct_hook Sample.standard_hook Sample.form_half)
    as (_ & _ & _ & Hclose).
  split.
  - rewrite (Hcancel (ex_intro _ _ eq_refl)). reflexivity.
  - rewrite (Hclose (ex_intro _ tt eq_refl)). reflexivity.
Defined.

(** ** The messages of the [catch] block *)

(** X8. The [catch] block of either variant produces the empty message,
    which the modal does not show, for exactly one kind of exception: an
    [Error] whose own message is empty. Every other exception gives a
    text. *)
Theorem errorMessage_empty_iff :
  forall (b : option JS.number) (err : thrown),
    (Direct.errorMessage b err = "" <-> err = ErrorObj "")
    /\ (Standard.errorMessage b err = "" <-> err = ErrorObj "").
Proof.
  intros b err. split; split.
  - destruct err as [m|]; [|discriminate]. unfold Direct.errorMessage.
    repeat match goal with
           | |- context [if ?c then _ else _] => destruct c
           end; try discriminate.
    intros ->. reflexivity.
  - intros ->. reflexivity.
  - destruct err as [m|]; [|discriminate]. unfold Standard.errorMessage.
    repeat match goal with
           | |- context [if ?c then _ else _] => destruct c
           end; try discriminate.
    intros ->. reflexivity.
  - intros ->. reflexivity.
Qed.

(** ** The calls of a run *)

(** X9. A run of either handler makes its calls in one order and never
    repeats one: the recipient is parsed first, the transfer instruction
    is built only after that, the provider is called only after the
    instruction was built, and the balance is queried only after the
    provider was called; each of the four calls is made at most once,
    and none is made without the one before it. *)
Theorem no_retry :
  forall (PublicKey Instruction : Type) (w : World PublicKey Instruction)
         (hd : Direct.Hook) (hs : Standard.Hook) (s : State),
    let d := Prog.trace (Direct.handleSendTransaction w hd s) in
    let t := Prog.trace (Standard.handleSendTransaction w hs s) in
    (in_order (calls d) = true
     /\ (count is_query d <= count is_submit d
         /\ count is_submit d <= count is_transfer d
         /\ count is_transfer d <= 1)%nat)
    /\ (in_order (calls t) = true
        /\ (count is_query t <= count is_submit t
            /\ count is_submit t <= count is_transfer t
            /\ count is_transfer t <= 1)%nat).
Proof.
  intros PublicKey Instruction w hd hs s d t. subst d t. split.
  - unfold Direct.handleSendTransaction, Direct.attempt, Direct.refreshBalance.
    destruct (Direct.smartWalletPubkey hd) as [from|];
      [|cbn; repeat split; lia].
    prog_step.
    destruct (negb (Direct.isConnected hd)
              || match Direct.wallet hd with Some _ => false | None => true end);
      [cbn; repeat split; lia|].
    repeat next_call; cbn; repeat split; lia.
  - unfold Standard.handleSendTransaction, Standard.attempt, Standard.refreshBalance.
    destruct (Standard.publicKey hs) as [from|];
      [|cbn; repeat split; lia].
    destruct (negb (Standard.connected hs)); [cbn; repeat split; lia|].
    repeat next_call; cbn; repeat split; lia.
Qed.

(** X10. The two variants validate alike. Each variant has a wallet
    provider of its own, and the two provider calls are different
    operations that are not compared here. With both wallets connected
    to the same account, and the [PublicKey] constructor and
    [SystemProgram.transfer] behaving alike for both, the two handlers
    make the same calls to these two, in the same order and with the
    same arguments, on every form content and whatever the two providers
    and nodes answer: an attempt is accepted by both or by neither, and
    both hand over the same lamports. *)
Theorem same_validation_in_both_variants :
  forall (PublicKey Instruction : Type) (wd ws : World PublicKey Instruction)
         (hd : Direct.Hook) (hs : Standard.Hook) (s : State)
         (from : PublicKey) (info : Direct.WalletInfo),
    Direct.smartWalletPubkey hd = Some from ->
    Direct.isConnected hd = true ->
    Direct.wallet hd = Some info ->
    Standard.publicKey hs = Some from ->
    Standard.connected hs = true ->
    (forall text, PublicKey_new wd text = PublicKey_new ws text) ->
    (forall params, SystemProgram_transfer wd params
                    = SystemProgram_transfer ws params) ->
    builds (Prog.trace (Direct.handleSendTransaction wd hd s))
    = builds (Prog.trace (Standard.handleSendTransaction ws hs s))
    /\ accepted (Prog.trace (Direct.handleSendTransaction wd hd s))
       = accepted (Prog.trace (Standard.handleSendTransaction ws hs s))
    /\ lamports_sent (Prog.trace (Direct.handleSendTransaction wd hd s))
       = lamports_sent (Prog.trace (Standard.handleSendTransaction ws hs s)).
Proof.
  intros PublicKey Instruction wd ws hd hs s from info
         Hdk Hdc Hdw Hsk Hsc Hnew Hbuild.
  unfold Direct.handleSendTransaction, Direct.attempt, Direct.refreshBalance,
    Standard.handleSendTransaction, Standard.attempt, Standard.refreshBalance.
  rewrite Hdk, Hdc, Hdw, Hsk, Hsc, Hnew.
  next_call; [|cbn; repeat split; reflexivity].
  next_call; [|cbn; repeat split; reflexivity].
  prog_step. rewrite Hbuild.
  repeat next_call; cbn; repeat split; reflexivity.
Qed.

Lemma same_validation_in_both_variants_witness :
  builds (Prog.trace (Direct.handleSendTransaction
                        Sample.world_ok Sample.direct_hook Sample.form_half))
  = builds (Prog.trace (Standard.handleSendTransaction
                          Sample.world_silent_error Sample.standard_hook
                          Sample.form_half))
  /\ lamports_sent (Prog.trace (Standard.handleSendTransaction
                                  Sample.world_silent_error Sample.standard_hook
                                  Sample.form_half))
     = Some (JS.of_Z 500000000).
Proof.
  destruct (same_validation_in_both_variants _ _ Sample.world_ok
              Sample.world_silent_error Sample.direct_hook Sample.standard_hook
              Sample.form_half Sample.me {| Direct.smartWallet := Sample.me |}
              eq_refl eq_refl eq_refl eq_refl eq_refl
              (fun _ => eq_refl) (fun _ => eq_refl))
    as (Hcalls & _ & Hsent).
  split; [exact Hcalls | rewrite <- Hsent; vm_compute; reflexivity].
Defined.

(** ** The polling interval *)

Section Intervals.
Context {PublicKey Instruction : Type}.
Implicit Types (tr : list (action PublicKey Instruction)) (n : Z).

Lemma last_cons_default {A : Type} (a d : A) (l : list A) :
  last (a :: l) d = last l a.
Proof.
  revert a d. induction l as [|b l IH]; intros a d; [reflexivity|].
  change (last (a :: b :: l) d) with (last (b :: l) d).
  rewrite (IH b d), (IH b a). reflexivity.
Qed.

Lemma live_intervals_app tr1 tr2 n :
  live_intervals (tr1 ++ tr2)%list n = live_intervals tr2 (live_intervals tr1 n).
Proof.
  revert n. induction tr1 as [|a tr1 IH]; intros n; [reflexivity|].
  destruct a; simpl; apply IH.
Qed.

Lemma intervals_ok_app tr1 tr2 n :
  intervals_ok tr1 n = true ->
  intervals_ok tr2 (live_intervals tr1 n) = true ->
  intervals_ok (tr1 ++ tr2)%list n = true.
Proof.
  revert n. induction tr1 as [|a tr1 IH]; intros n H1 H2; [exact H2|].
  destruct a; simpl in *; apply andb_prop in H1; destruct H1 as [Hn H1];
    rewrite Hn; simpl; apply IH; assumption.
Qed.

(** One change of the dependency: the old interval goes before the new
    one comes. *)
Lemma direct_change_intervals (w : World PublicKey Instruction)
      (h h' : Direct.Hook) :
  exists tr,
    Direct.on_pubkey_change w h h' = (tr, Ok tt)
    /\ intervals_ok tr (one_if (direct_keyed h)) = true
    /\ live_intervals tr (one_if (direct_keyed h)) = one_if (direct_keyed h').
Proof.
  unfold Direct.on_pubkey_change, Direct.cleanup, Direct.effect, direct_keyed.
  destruct (direct_refresh_cases w h')
    as [H|[(pk & e & _ & _ & H)|(pk & n & _ & _ & H)]]; rewrite H;
    destruct (Direct.smartWalletPubkey h), (Direct.smartWalletPubkey h');
    eexists; (split; [reflexivity|]); split; reflexivity.
Qed.

Lemma standard_change_intervals (w : World PublicKey Instruction)
      (h h' : Standard.Hook) :
  exists tr,
    Standard.on_pubkey_change w h h' = (tr, Ok tt)
    /\ intervals_ok tr (one_if (standard_keyed h)) = true
    /\ live_intervals tr (one_if (standard_keyed h)) = one_if (standard_keyed h').
Proof.
  unfold Standard.on_pubkey_change, Standard.cleanup, Standard.effect, standard_keyed.
  destruct (standard_refresh_cases w h')
    as [H|[(pk & e & _ & _ & H)|(pk & n & _ & _ & H)]]; rewrite H;
    destruct (Standard.publicKey h), (Standard.publicKey h');
    eexists; (split; [reflexivity|]); split; reflexivity.
Qed.

Lemma direct_changes_intervals (h : Direct.Hook)
      (later : list (World PublicKey Instruction * Direct.Hook)) :
  exists tr,
    direct_changes h later = (tr, Ok tt)
    /\ intervals_ok tr (one_if (direct_keyed h)) = true
    /\ live_intervals tr (one_if (direct_keyed h))
       = one_if (direct_keyed (last_hook h later)).
Proof.
  revert h. induction later as [|[w h'] rest IH]; intros h.
  - exists []. unfold last_hook. simpl. destruct (direct_keyed h); auto.
  - destruct (direct_change_intervals w h h') as (tr1 & H1 & Hok1 & Hlive1).
    destruct (IH h') as (tr2 & H2 & Hok2 & Hlive2).
    exists (tr1 ++ tr2)%list. simpl direct_changes. rewrite H1.
    unfold Prog.bind. rewrite H2. split; [reflexivity|].
    rewrite live_intervals_app, Hlive1. split.
    + apply intervals_ok_app; [exact Hok1|rewrite Hlive1; exact Hok2].
    + rewrite Hlive2. unfold last_hook. simpl map.
      rewrite last_cons_default. reflexivity.
Qed.

Lemma standard_changes_intervals (h : Standard.Hook)
      (later : list (World PublicKey Instruction * Standard.Hook)) :
  exists tr,
    standard_changes h later = (tr, Ok tt)
    /\ intervals_ok tr (one_if (standard_keyed h)) = true
    /\ live_intervals tr (one_if (standard_keyed h))
       = one_if (standard_keyed (last_hook h later)).
Proof.
  revert h. induction later as [|[w h'] rest IH]; intros h.
  - exists []. unfold last_hook. simpl. destruct (standard_keyed h); auto.
  - destruct (standard_change_intervals w h h') as (tr1 & H1 & Hok1 & Hlive1).
    destruct (IH h') as (tr2 & H2 & Hok2 & Hlive2).
    exists (tr1 ++ tr2)%list. simpl standard_changes. rewrite H1.
    unfold Prog.bind. rewrite H2. split; [reflexivity|].
    rewrite live_intervals_app, Hlive1. split.
    + apply intervals_ok_app; [exact Hok1|rewrite Hlive1; exact Hok2].
    + rewrite Hlive2. unfold last_hook. simpl map.
      rewrite last_cons_default. reflexivity.
Qed.

End Intervals.

Section MountIntervals.
Context {PublicKey Instruction : Type}.
Variable w : World PublicKey Instruction.

Lemma direct_effect_intervals (h : Direct.Hook) :
  exists tr,
    Direct.effect w h = (tr, Ok tt)
    /\ intervals_ok tr 0 = true
    /\ live_intervals tr 0 = one_if (direct_keyed h).
Proof.
  unfold Direct.effect, direct_keyed.
  destruct (direct_refresh_cases w h)
    as [H|[(pk & e & _ & _ & H)|(pk & n & _ & _ & H)]]; rewrite H;
    destruct (Direct.smartWalletPubkey h);
    eexists; (split; [reflexivity|]); split; reflexivity.
Qed.

Lemma standard_effect_intervals (h : Standard.Hook) :
  exists tr,
    Standard.effect w h = (tr, Ok tt)
    /\ intervals_ok tr 0 = true
    /\ live_intervals tr 0 = one_if (standard_keyed h).
Proof.
  unfold Standard.effect, standard_keyed.
  destruct (standard_refresh_cases w h)
    as [H|[(pk & e & _ & _ & H)|(pk & n & _ & _ & H)]]; rewrite H;
    destruct (Standard.publicKey h);
    eexists; (split; [reflexivity|]); split; reflexivity.
Qed.

End MountIntervals.

(** X11. Through the whole life of a mounted dashboard of either
    variant, whatever the account identifier does from render to render
    and whatever the balance queries answer, there is never more than
    one polling interval: the count of intervals set and not cleared is
    0 or 1 at every point, it is 1 after a render with an identifier and
    0 after a render without one, and it is 0 once the dashboard is
    unmounted. *)
Theorem at_most_one_interval :
  forall (PublicKey Instruction : Type) (w : World PublicKey Instruction)
         (hd : Direct.Hook) (hs : Standard.Hook)
         (laterd : list (World PublicKey Instruction * Direct.Hook))
         (laters : list (World PublicKey Instruction * Standard.Hook)),
    let d := Prog.trace (direct_life w hd laterd) in
    let t := Prog.trace (standard_life w hs laters) in
    (intervals_ok d 0 = true
     /\ live_intervals d 0 = one_if (direct_keyed (last_hook hd laterd))
     /\ live_intervals
          (d ++ Prog.trace (direct_unmount (Instruction := Instruction)
                              (last_hook hd laterd)))%list 0 = 0)
    /\ (intervals_ok t 0 = true
        /\ live_intervals t 0 = one_if (standard_keyed (last_hook hs laters))
        /\ live_intervals
             (t ++ Prog.trace (standard_unmount (Instruction := Instruction)
                                 (last_hook hs laters)))%list 0 = 0).
Proof.
  intros PublicKey Instruction w hd hs laterd laters d t. subst d t. split.
  - destruct (direct_effect_intervals w hd) as (tr1 & H1 & Hok1 & Hlive1).
    destruct (direct_changes_intervals hd laterd) as (tr2 & H2 & Hok2 & Hlive2).
    unfold direct_life, Prog.bind. rewrite H1, H2. cbn [Prog.trace fst].
    rewrite !live_intervals_app, Hlive1, Hlive2.
    split; [apply intervals_ok_app; [exact Hok1|rewrite Hlive1; exact Hok2]|].
    split; [reflexivity|].
    unfold direct_unmount, Direct.cleanup, direct_keyed.
    destruct (Direct.smartWalletPubkey (last_hook hd laterd)); reflexivity.
  - destruct (standard_effect_intervals w hs) as (tr1 & H1 & Hok1 & Hlive1).
    destruct (standard_changes_intervals hs laters) as (tr2 & H2 & Hok2 & Hlive2).
    unfold standard_life, Prog.bind. rewrite H1, H2. cbn [Prog.trace fst].
    rewrite !live_intervals_app, Hlive1, Hlive2.
    split; [apply intervals_ok_app; [exact Hok1|rewrite Hlive1; exact Hok2]|].
    split; [reflexivity|].
    unfold standard_unmount, Standard.cleanup, standard_keyed.
    destruct (Standard.publicKey (last_hook hs laters)); reflexivity.
Qed.

(** ** The states a dashboard reaches *)

Section Invariant.
Context {PublicKey Instruction Hook : Type}.
Variable hasKey : Hook -> bool.
Variable refreshBalance :
  World PublicKey Instruction -> Hook -> Prog.t (E := action PublicKey Instruction) unit.
Variable handleSendTransaction :
  World PublicKey Instruction -> Hook -> State ->
  Prog.t (E := action PublicKey Instruction) unit.

Hypothesis refresh_only_balance :
  forall w h s,
    after (refreshBalance w h) s
    = {| balance := balance (after (refreshBalance w h) s);
         copied := copied s; showSendModal := showSendModal s;
         recipient := recipient s; amount := amount s; txHash := txHash s;
         txError := txError s; sending := sending s |}.

Hypothesis handle_leaves :
  forall w h s,
    (exists m,
        after (handleSendTransaction w h s) s
        = {| balance := balance s; copied := copied s;
             showSendModal := showSendModal s; recipient := recipient s;
             amount := amount s; txHash := None; txError := m;
             sending := false |})
    \/ (exists sig b,
           after (handleSendTransaction w h s) s
           = {| balance := b; copied := copied s;
                showSendModal := showSendModal s; recipient := "";
                amount := ""; txHash := Some sig; txError := "";
                sending := false |}).

Lemma after_keeps_balance_known {A}
      (p : Prog.t (E := action PublicKey Instruction) A) (s : State) :
  (exists b, balance s = Some b) -> exists b, balance (after p s) = Some b.
Proof.
  intros [b Hb]. unfold after. exact (run_balance_known _ s b Hb).
Qed.

Lemma step_keeps_invariant (s s' : State) :
  dashboard_invariant s ->
  step hasKey refreshBalance handleSendTransaction s s' ->
  dashboard_invariant s'.
Proof.
  intros (Hopen & Hboth & Hempty) Hstep.
  destruct Hstep as [w h s|h s Hk|s|h s Hen|r s Hform Hsend|a s Hform Hsend
                    |w h s Hform Hsend|s Hform Hsend|s Hpanel].
  - (* a refresh *)
    pose proof (after_keeps_balance_known (refreshBalance w h) s) as Hknown.
    rewrite refresh_only_balance in *. unfold dashboard_invariant, hash_shown,
      error_shown in *. cbn [showSendModal balance txHash txError recipient amount] in *.
    auto.
  - exact (conj Hopen (conj Hboth Hempty)).
  - exact (conj Hopen (conj Hboth Hempty)).
  - (* the Send SOL button *)
    unfold View.sendDisabled in Hen. apply orb_false_elim in Hen.
    destruct Hen as [_ Hbal].
    split; [|exact (conj Hboth Hempty)].
    intros _. cbn [update balance]. destruct (balance s) as [b|]; [eauto|discriminate].
  - (* an edit of the recipient *)
    unfold View.modal in Hform. destruct (showSendModal s) eqn:Hshow; [|discriminate].
    destruct (hash_shown s) eqn:Hhash; [discriminate|].
    unfold dashboard_invariant, hash_shown in *.
    cbn [update showSendModal balance txHash txError recipient amount error_shown] in *.
    rewrite Hshow, Hhash. repeat split; auto; discriminate.
  - (* an edit of the amount *)
    unfold View.modal in Hform. destruct (showSendModal s) eqn:Hshow; [|discriminate].
    destruct (hash_shown s) eqn:Hhash; [discriminate|].
    unfold dashboard_invariant, hash_shown in *.
    cbn [update showSendModal balance txHash txError recipient amount error_shown] in *.
    rewrite Hshow, Hhash. repeat split; auto; discriminate.
  - (* a submit *)
    pose proof (after_keeps_balance_known (handleSendTransaction w h s) s) as Hknown.
    destruct (handle_leaves w h s) as [[m Hs]|(sig & b & Hs)]; rewrite Hs in *;
      unfold dashboard_invariant, hash_shown, error_shown in *;
      cbn [showSendModal balance txHash txError recipient amount] in *.
    + repeat split; auto; discriminate.
    + repeat split; auto. destruct sig; reflexivity.
  - (* Cancel *)
    unfold View.modal in Hform. destruct (showSendModal s) eqn:Hshow; [|discriminate].
    destruct (hash_shown s) eqn:Hhash; [discriminate|].
    unfold dashboard_invariant, hash_shown, error_shown, after in *.
    cbn in *. rewrite Hhash. repeat split; auto; discriminate.
  - (* Close *)
    unfold dashboard_invariant, hash_shown, error_shown, after in *.
    cbn in *. repeat split; auto; discriminate.
Qed.

Lemma reachable_invariant (s : State) :
  reachable hasKey refreshBalance handleSendTransaction s ->
  dashboard_invariant s.
Proof.
  induction 1 as [|s s' _ IH Hstep].
  - unfold dashboard_invariant. cbn. repeat split; auto; discriminate.
  - exact (step_keeps_invariant s s' IH Hstep).
Qed.

End Invariant.

Section HandleLeaves.
Context {PublicKey Instruction : Type}.
Variable w : World PublicKey Instruction.
Variable s : State.

Lemma direct_handle_leaves (h : Direct.Hook) :
  (exists m,
      after (Direct.handleSendTransaction w h s) s
      = {| balance := balance s; copied := copied s;
           showSendModal := showSendModal s; recipient := recipient s;
           amount := amount s; txHash := None; txError := m;
           sending := false |})
  \/ (exists sig b,
         after (Direct.handleSendTransaction w h s) s
         = {| balance := b; copied := copied s;
              showSendModal := showSendModal s; recipient := "";
              amount := ""; txHash := Some sig; txError := "";
              sending := false |}).
Proof.
  destruct (direct_handle_cases w h s)
    as [(e & pre & Hout & _)|(sig & pre & Hout & _)].
  - left. destruct (direct_failure_leaves w s h (ex_intro _ e Hout))
      as (e' & _ & Hstate & _).
    exists (Direct.errorMessage (balance s) e'). exact Hstate.
  - right. destruct (direct_success_leaves w s h (ex_intro _ tt Hout))
      as (i & sig' & _ & Hstate).
    rewrite direct_refresh_only_balance in Hstate.
    exists sig', (balance (after (Direct.refreshBalance w h) (recorded s sig'))).
    exact Hstate.
Qed.

Lemma standard_handle_leaves (h : Standard.Hook) :
  (exists m,
      after (Standard.handleSendTransaction w h s) s
      = {| balance := balance s; copied := copied s;
           showSendModal := showSendModal s; recipient := recipient s;
           amount := amount s; txHash := None; txError := m;
           sending := false |})
  \/ (exists sig b,
         after (Standard.handleSendTransaction w h s) s
         = {| balance := b; copied := copied s;
              showSendModal := showSendModal s; recipient := "";
              amount := ""; txHash := Some sig; txError := "";
              sending := false |}).
Proof.
  destruct (standard_handle_cases w h s)
    as [(e & pre & Hout & _)|(sig & pre & Hout & _)].
  - left. destruct (standard_failure_leaves w s h (ex_intro _ e Hout))
      as (e' & _ & Hstate & _).
    exists (Standard.errorMessage (balance s) e'). exact Hstate.
  - right. destruct (standard_success_leaves w s h (ex_intro _ tt Hout))
      as (i & sig' & _ & Hstate).
    rewrite standard_refresh_only_balance in Hstate.
    exists sig', (balance (after (Standard.refreshBalance w h) (recorded s sig'))).
    exact Hstate.
Qed.

End HandleLeaves.

(** X12. In every state a mounted dashboard of either variant can
    reach, by refreshes, clicks on the controls its render offers, form
    edits and submissions against any worlds and hooks: an open send
    modal has a known balance under it, so the handler is never run with
    the balance unknown; a transaction identifier and an error message
    are never shown together; and while the success panel is shown the
    recipient and amount fields are empty. *)
Theorem reachable_dashboard_invariant :
  forall (PublicKey Instruction : Type) (s : State),
    (direct_reachable (PublicKey := PublicKey) (Instruction := Instruction) s ->
     dashboard_invariant s)
    /\ (standard_reachable (PublicKey := PublicKey) (Instruction := Instruction) s ->
        dashboard_invariant s).
Proof.
  intros PublicKey Instruction s. split; intros Hreach.
  - refine (reachable_invariant _ _ _ _ _ s Hreach).
    + intros w h s0. apply direct_refresh_only_balance.
    + intros w h s0. apply direct_handle_leaves.
  - refine (reachable_invariant _ _ _ _ _ s Hreach).
    + intros w h s0. apply standard_refresh_only_balance.
    + intros w h s0. apply standard_handle_leaves.
Qed.

Lemma reachable_dashboard_invariant_witness :
  exists b, balance Sample.opened = Some b.
Proof.
  refine (proj1 (proj1 (reachable_dashboard_invariant
                          Sample.Key (TransferParams Sample.Key) Sample.opened) _)
                eq_refl).
  unfold direct_reachable, Sample.opened.
  apply reach_step
    with (s := after (Direct.refreshBalance Sample.world_ok Sample.direct_hook)
                     initial).
  - apply reach_step with (s := initial); [apply reach_mount|apply step_refresh].
  - apply (step_open _ _ _ Sample.direct_hook). reflexivity.
Defined.

(** ** A balance at or below the reserve *)

Section Rounding.

Lemma shr_1_nonneg (mrs : shr_record) : 0 <= shr_m mrs -> 0 <= shr_m (shr_1 mrs).
Proof.
  destruct mrs as [m r t]. simpl.
  destruct m as [|p|p]; [intros _|intros _|intros H; exfalso; lia];
    try destruct p; simpl; lia.
Qed.

Lemma iter_shr_1_nonneg (p : positive) (mrs : shr_record) :
  0 <= shr_m mrs -> 0 <= shr_m (iter_pos shr_1 p mrs).
Proof.
  revert mrs. induction p as [p IH|p IH|]; intros mrs H; simpl.
  - apply IH, IH, shr_1_nonneg, H.
  - apply IH, IH, H.
  - apply shr_1_nonneg, H.
Qed.

Lemma shr_fexp_nonneg (m e : Z) (l : location) :
  0 <= m -> 0 <= shr_m (fst (shr_fexp JS.prec JS.emax m e l)).
Proof.
  intros H. unfold shr_fexp, shr.
  assert (H0 : 0 <= shr_m (shr_record_of_loc m l))
    by (destruct l as [|[]]; exact H).
  destruct (fexp JS.prec JS.emax (Zdigits2 m + e) - e); simpl;
    [exact H0|apply iter_shr_1_nonneg, H0|exact H0].
Qed.

Lemma round_nearest_even_nonneg (m : Z) (l : location) :
  0 <= m -> 0 <= round_nearest_even m l.
Proof.
  intros H. destruct l as [|[]]; simpl; try lia. destruct (Z.even m); lia.
Qed.

(** Rounding keeps the sign it is given and never makes a NaN. *)
Lemma binary_round_aux_signed (sx : bool) (m e : Z) (l : location) :
  0 <= m -> signed sx (binary_round_aux JS.prec JS.emax sx m e l).
Proof.
  intros H. unfold binary_round_aux.
  pose proof (shr_fexp_nonneg m e l H) as H1.
  destruct (shr_fexp JS.prec JS.emax m e l) as [mrs' e']. simpl in H1.
  pose proof (shr_fexp_nonneg _ e' loc_Exact
                (round_nearest_even_nonneg _ (loc_of_shr_record mrs') H1)) as H2.
  destruct (shr_fexp JS.prec JS.emax _ e' loc_Exact) as [mrs'' e'']. simpl in H2.
  destruct (shr_m mrs'') as [|p|p]; [reflexivity| |exfalso; lia].
  destruct (e'' <=? JS.emax - JS.prec); reflexivity.
Qed.

Lemma binary_round_signed (sx : bool) (m : positive) (e : Z) :
  signed sx (binary_round JS.prec JS.emax sx m e).
Proof.
  unfold binary_round.
  destruct (shl_align m e _) as [mz ez]. apply binary_round_aux_signed. lia.
Qed.

(** The difference of two numbers whose aligned mantissas do not
    increase is zero or negative. *)
Lemma binary_normalize_nonpos (d e : Z) :
  d <= 0 ->
  binary_normalize JS.prec JS.emax d e false = S754_zero false
  \/ signed true (binary_normalize JS.prec JS.emax d e false).
Proof.
  intros H. destruct d as [|p|p]; [left; reflexivity|exfalso; lia|].
  right. apply binary_round_signed.
Qed.

Lemma digits2_pos_bound (m : positive) : Zpos m < 2 ^ Zpos (digits2_pos m).
Proof.
  induction m as [m IH|m IH|]; simpl digits2_pos;
    rewrite ?Pos2Z.inj_succ, ?Z.pow_succ_r by lia; lia.
Qed.

Lemma iter_xO_double (m d : positive) : 2 * Zpos m <= Zpos (Pos.iter xO m d).
Proof.
  induction d as [|d IH] using Pos.peano_ind.
  - simpl. lia.
  - rewrite Pos.iter_succ. lia.
Qed.

(** A valid mantissa has at most 53 bits. *)
Lemma valid_mantissa_bound (s : bool) (m : positive) (e : Z) :
  valid_binary JS.prec JS.emax (S754_finite s m e) = true -> Zpos m < 2 ^ 53.
Proof.
  unfold valid_binary, bounded, canonical_mantissa, fexp, JS.prec.
  intros H. apply andb_prop in H. destruct H as [H _]. apply Z.eqb_eq in H.
  pose proof (digits2_pos_bound m) as Hd.
  assert (Hle : Zpos (digits2_pos m) <= 53) by lia.
  apply Z.lt_le_trans with (1 := Hd). apply Z.pow_le_mono_r; lia.
Qed.

End Rounding.

Section BelowReserve.

Lemma sub_reserve_nonpos (b : JS.number) :
  valid_binary JS.prec JS.emax b = true ->
  JS.isFinite b = true ->
  JS.le b RENT_RESERVE = true ->
  JS.sub b RENT_RESERVE = S754_zero false \/ signed true (JS.sub b RENT_RESERVE).
Proof.
  rewrite RENT_RESERVE_value. intros Hvalid Hfin Hle.
  destruct b as [sb|sb| |sb mb eb]; try discriminate Hfin.
  - right. reflexivity.
  - unfold JS.sub, SFsub. apply binary_normalize_nonpos.
    destruct sb.
    + unfold cond_Zopp. lia.
    + pose proof (valid_mantissa_bound false mb eb Hvalid) as Hmb.
      assert (H53 : 2 ^ 53 = 9007199254740992) by reflexivity.
      rewrite H53 in Hmb. clear H53.
      unfold JS.le, SFleb, SFcompare in Hle. unfold cond_Zopp.
      destruct (Z.compare_spec eb (-62)) as [Heq|Hlt|Hgt]; [| |discriminate Hle].
      * subst eb. change (Z.min (-62) (-62)) with (-62).
        unfold shl_align. rewrite Z.sub_diag. cbn [fst].
        destruct (Pos.compare_cont Eq mb 4611686018427388) eqn:Hc;
          [| |discriminate Hle].
        { apply Pos.compare_eq in Hc. subst mb. lia. }
        { assert (Hm : (mb < 4611686018427388)%positive) by exact Hc.
          clear Hc Hle Hvalid Hfin. apply Pos2Z.pos_lt_pos in Hm. lia. }
      * rewrite Z.min_l by lia. unfold shl_align. rewrite Z.sub_diag.
        destruct (eb - -62) as [|d|d] eqn:Hd; [lia|lia|]. cbn [fst].
        pose proof (iter_xO_double 4611686018427388 d) as Hshift.
        clear Hle Hvalid Hfin. lia.
Qed.

(** With a valid balance at or below the reserve nothing is left to
    send. *)
Lemma max_sendable_zero (b : JS.number) :
  valid_binary JS.prec JS.emax b = true ->
  JS.isFinite b = true ->
  JS.le b RENT_RESERVE = true ->
  JS.Math_max JS.zero (JS.sub b RENT_RESERVE) = JS.zero.
Proof.
  intros Hvalid Hfin Hle.
  destruct (sub_reserve_nonpos b Hvalid Hfin Hle) as [H|H]; [rewrite H; reflexivity|].
  destruct (JS.sub b RENT_RESERVE) as [s|s| |s m e]; simpl in H;
    try contradiction; subst s; reflexivity.
Qed.

(** Every amount is at most zero, not finite, or above zero. *)
Lemma nothing_fits_zero (a b : JS.number) :
  JS.le a JS.zero || negb (JS.isFinite a) || JS.gt a b || JS.gt a JS.zero = true.
Proof.
  destruct a as [s|s| |[] m e]; simpl; rewrite ?orb_true_r; reflexivity.
Qed.

End BelowReserve.

(** X13. A wallet whose balance is at or below the rent reserve of 0.001
    can send nothing: for every valid finite balance [b <= 0.001] and
    every amount text, both handlers reject the attempt, and the form's
    hint reads 0.0000 as the most that can be sent. The Send SOL button
    is disabled only for a balance that is exactly zero, so for a
    balance between zero and the reserve the form opens and every
    submission fails. *)
Theorem nothing_to_send_below_reserve :
  forall (PublicKey Instruction : Type) (w : World PublicKey Instruction)
         (hd : Direct.Hook) (hs : Standard.Hook) (s : State)
         (from to : PublicKey) (info : Direct.WalletInfo) (b : JS.number),
    Direct.smartWalletPubkey hd = Some from ->
    Direct.isConnected hd = true ->
    Direct.wallet hd = Some info ->
    Standard.publicKey hs = Some from ->
    Standard.connected hs = true ->
    PublicKey_new w (JS.trim (recipient s)) = Ok to ->
    balance s = Some b ->
    valid_binary JS.prec JS.emax b = true ->
    JS.isFinite b = true ->
    JS.le b RENT_RESERVE = true ->
    accepted (Prog.trace (Direct.handleSendTransaction w hd s)) = false
    /\ accepted (Prog.trace (Standard.handleSendTransaction w hs s)) = false
    /\ View.maxSendableHint (balance s) = Some "0.0000"
    /\ View.sendDisabled true (balance s) = View.is_zero b.
Proof.
  intros PublicKey Instruction w hd hs s from to info b
         Hdk Hdc Hdw Hsk Hsc Hnew Hbal Hvalid Hfin Hle.
  pose proof (max_sendable_zero b Hvalid Hfin Hle) as Hmax.
  pose proof (checkAmount_rejects (PublicKey := PublicKey)
                (Instruction := Instruction) (amount s) b Hfin) as Hrule.
  unfold spec_rejects in Hrule. rewrite Hmax, nothing_fits_zero in Hrule.
  rewrite <- Hbal in Hrule. unfold Prog.throws in Hrule.
  destruct (Prog.outcome (checkAmount (amount s) (balance s))) as [v|e] eqn:Hcheck;
    [discriminate Hrule|].
  rewrite (direct_rejected w hd s from info Hdk Hdc Hdw to e Hnew Hcheck).
  rewrite (standard_rejected w hs s from Hsk Hsc to e Hnew Hcheck).
  split; [reflexivity|]. split; [reflexivity|].
  rewrite Hbal. unfold View.maxSendableHint, View.sendDisabled.
  change (JS.of_decimal 1 (-3)) with RENT_RESERVE. rewrite Hmax.
  split; reflexivity.
Qed.

Lemma nothing_to_send_below_reserve_witness :
  accepted (Prog.trace (Direct.handleSendTransaction
                          Sample.world_ok Sample.direct_hook
                          (Sample.form (Some (JS.of_decimal 5 (-4))) Sample.you
                                       "0.0001"))) = false
  /\ View.sendDisabled true (Some (JS.of_decimal 5 (-4))) = false.
Proof.
  destruct (nothing_to_send_below_reserve _ _ Sample.world_ok Sample.direct_hook
              Sample.standard_hook
              (Sample.form (Some (JS.of_decimal 5 (-4))) Sample.you "0.0001")
              Sample.me Sample.you {| Direct.smartWallet := Sample.me |}
              (JS.of_decimal 5 (-4))
              eq_refl eq_refl eq_refl eq_refl eq_refl eq_refl eq_refl
              eq_refl eq_refl eq_refl) as (Hd & _ & _ & Hbutton).
  split; [exact Hd|]. cbn [balance Sample.form] in Hbutton.
  rewrite Hbutton. reflexivity.
Defined.

(** X15. The validation of either handler can fail with three messages
    only, and for a finite balance the reserve message quotes the very
    number the form shows under Max sendable: an exception of the
    amount and balance rules is Invalid amount, Insufficient balance, or
    the Amount too high text built around that hint; with the balance
    unknown it is Invalid amount. *)
Theorem validation_messages :
  forall (PublicKey Instruction : Type) (amt : string)
         (bal : option JS.number) (e : thrown),
    Prog.outcome (checkAmount (PublicKey := PublicKey) (Instruction := Instruction)
                    amt bal) = Throw e ->
    match bal with
    | None => e = ErrorObj "Invalid amount"
    | Some b =>
        JS.isFinite b = true ->
        e = ErrorObj "Invalid amount"
        \/ e = ErrorObj "Insufficient balance"
        \/ exists hint,
            View.maxSendableHint bal = Some hint
            /\ e = ErrorObj
                     ("Amount too high. Keep at least 0.001 SOL for rent. Max sendable: "
                      ++ hint ++ " SOL")
    end.
Proof.
  intros PublicKey Instruction amt bal e. unfold checkAmount.
  destruct (JS.isNaN (JS.parseFloat amt) || JS.le (JS.parseFloat amt) JS.zero).
  - prog_step. intros H. injection H as <-. destruct bal; auto.
  - prog_step. destruct bal as [b|]; prog_step; [|discriminate].
    destruct (JS.gt (JS.parseFloat amt) b); prog_step.
    + intros H _. injection H as <-. auto.
    + intros H Hfin. revert H. rewrite (sub_balance_or_0 b Hfin).
      destruct (JS.gt (JS.parseFloat amt) _); prog_step; [|discriminate].
      intros H. injection H as <-. right. right.
      exists (JS.toFixed (JS.Math_max JS.zero (JS.sub b RENT_RESERVE)) 4).
      split; reflexivity.
Qed.

Lemma validation_messages_witness :
  exists hint,
    View.maxSendableHint (Some Sample.one_sol) = Some hint
    /\ ErrorObj "Amount too high. Keep at least 0.001 SOL for rent. Max sendable: 0.9990 SOL"
       = ErrorObj ("Amount too high. Keep at least 0.001 SOL for rent. Max sendable: "
                   ++ hint ++ " SOL").
Proof.
  destruct (validation_messages Sample.Key (TransferParams Sample.Key) "0.9995"
              (Some Sample.one_sol) _ eq_refl eq_refl) as [H|[H|H]];
    [discriminate H|discriminate H|exact H].
Defined.

Lemma lamports_are_the_float_product_witness :
  lamports_sent (Prog.trace (Direct.handleSendTransaction
                               Sample.world_ok Sample.direct_hook Sample.form_half))
  = Some (JS.mul (JS.parseFloat "0.5") LAMPORTS_PER_SOL)
  /\ JS.mul (JS.parseFloat "0.5") LAMPORTS_PER_SOL
     = S754_finite false 8388608000000000 (-24).
Proof.
  destruct (lamports_are_the_float_product _ _ Sample.world_ok Sample.direct_hook
              Sample.standard_hook Sample.form_half Sample.me Sample.you
              {| Direct.smartWallet := Sample.me |} (JS.parseFloat "0.5")
              eq_refl eq_refl eq_refl eq_refl eq_refl eq_refl eq_refl)
    as (_ & Hd & _).
  split; [exact Hd|reflexivity].
Defined.
